(** * bio_rag_demo: the GTEx fetcher and the liver ETL

    A shallow embedding of [src/download_gtex.py] (the Fetcher) and
    [src/etl_gtex.py] (the Transformer), and the properties of the
    repository's specification stated over it.

    Conventions.
    - A file is the string of its bytes; the local file system is a finite
      map from paths (relative to the project root [BASE]) to files.
    - Python exceptions are the constructors of [error]; code that can raise
      returns a [result].
    - Text handles are read at byte level: a character of the text is a byte
      of the file, after Python's universal-newline translation.  This is
      exact for ASCII input, which is what the GTEx files are.
    - [pd.read_csv] is a library call.  [read_csv] below models the part of
      its documented behaviour the scripts rely on (tab separator,
      [skiprows], blank-line skipping, header row, [usecols]).  A
      [DataFrame] holds, for every cell, the field of the file the cell is
      read from.  What pandas makes of a field (a missing value for a token
      such as NA, a number for a column of numbers, the text otherwise) is
      the library's: the conversion is a parameter, [infer] for the
      metadata and [matrix_cells] for the matrix.  Quoting and the renaming
      of duplicate or empty header labels are not modelled; the properties
      that depend on the tokens are stated for [plain_text] input with
      distinct labels.
    - [pa.Table.from_pandas] and [pq.write_table] are a parameter too,
      [to_parquet]: the writer may refuse a table, and then the run fails.
    - [gzip] is a library as well; its decoder is a parameter, and so is
      what MLflow writes into its store. *)

From Stdlib Require Import Ascii.
From stdpp Require Import base option list strings gmap sets.


(** ** Exceptions and results *)

Inductive error :=
| FileNotFoundError (path : string)
| BadGzipFile
| StopIteration
| EmptyDataError
| UsecolsError (missing : list string)
| ParserError
| AttributeError (name : string)
| KeyError (name : string)
| URLError (url : string)
| ArrowError (reason : string).

Inductive result (A : Type) :=
| Ok (a : A)
| Err (e : error).
Arguments Ok {A} a.
Arguments Err {A} e.

#[global] Instance result_ret : MRet result := @Ok.
#[global] Instance result_bind : MBind result := λ A B f m,
  match m with
  | Ok a => f a
  | Err e => Err e
  end.

Definition succeeded {A} (r : result A) : bool :=
  match r with Ok _ => true | Err _ => false end.

(** ** Text primitives *)

Definition LF : ascii := "010"%char.
Definition CR : ascii := "013"%char.
Definition TAB : ascii := "009"%char.
Definition SP : ascii := " "%char.

#[global] Arguments Ascii.eqb : simpl never.

Definition DQUOTE : ascii := "034"%char.

(** Text on which the line and field cutting below is the one of Python and
    of pandas alike: printable ASCII with tabs and newlines, and no
    quotation mark (pandas reads a quoted field without its quotes,
    [str.split] keeps them). *)
Definition plain_char (c : ascii) : Prop :=
  (c = TAB ∨ c = LF ∨ 32 ≤ nat_of_ascii c < 127) ∧ c ≠ DQUOTE.

(** Bytes that decode to themselves, whatever the encoding of the locale. *)
Definition ascii_text (raw : string) : Prop :=
  Forall (λ c, nat_of_ascii c < 128) (String.list_ascii_of_string raw).

Definition plain_text (text : string) : Prop :=
  Forall plain_char (String.list_ascii_of_string text).

#[global] Instance plain_char_dec (c : ascii) : Decision (plain_char c).
Proof. unfold plain_char. apply _. Defined.

#[global] Instance plain_text_dec (text : string) : Decision (plain_text text).
Proof. unfold plain_text. apply _. Defined.

#[global] Instance ascii_text_dec (raw : string) : Decision (ascii_text raw).
Proof. unfold ascii_text. apply _. Defined.

(** Text mode with [newline=None]: "\r\n" and a lone "\r" read as "\n". *)
Fixpoint universal_newlines (s : string) : string :=
  match s with
  | "" => ""
  | String c rest =>
      if Ascii.eqb c CR then
        match rest with
        | String c' rest' =>
            if Ascii.eqb c' LF then String LF (universal_newlines rest')
            else String LF (universal_newlines rest)
        | "" => String LF ""
        end
      else String c (universal_newlines rest)
  end.

(** [s.split(sep)] for a one-character separator: never the empty list. *)
Fixpoint split_on (sep : ascii) (s : string) : list string :=
  match s with
  | "" => [""]
  | String c rest =>
      if Ascii.eqb c sep then "" :: split_on sep rest
      else match split_on sep rest with
           | piece :: pieces => String c piece :: pieces
           | [] => [String c ""]
           end
  end.

(** Iterating a text handle: the lines of the text, each with its
    terminating "\n" (the last line may lack one). *)
Fixpoint iter_lines (s : string) : list string :=
  match s with
  | "" => []
  | String c rest =>
      if Ascii.eqb c LF then String c "" :: iter_lines rest
      else match iter_lines rest with
           | line :: lines => String c line :: lines
           | [] => [String c ""]
           end
  end.

(** [s.rstrip("\n")]: drops the whole trailing run of newlines. *)
Fixpoint rstrip_nl (s : string) : string :=
  match s with
  | "" => ""
  | String c rest =>
      let rest' := rstrip_nl rest in
      if Ascii.eqb c LF && String.eqb rest' "" then "" else String c rest'
  end.

(** A handle being read is the list of lines not yet consumed. *)
Definition next_line (h : list string) : result (string * list string) :=
  match h with
  | line :: h' => Ok (line, h')
  | [] => Err StopIteration
  end.

Definition readline (h : list string) : string * list string :=
  match h with
  | line :: h' => (line, h')
  | [] => ("", [])
  end.

(** ** The filter set (etl_gtex.py, lines 42-48) *)

(** Discovery pass: skip two lines, split the third on tabs. *)
Definition col_names (text : string) : result (list string) :=
  '(_, h1) ← next_line (iter_lines text);
  '(_, h2) ← next_line h1;
  let '(line, _) := readline h2 in
  Ok (split_on TAB (rstrip_nl line)).

Definition gct_samples (cols : list string) : gset string :=
  list_to_set (drop 2 cols).

Definition keep_ids (liver_ids : list string) (samples : gset string)
  : list string :=
  filter (λ sid, sid ∈ samples) liver_ids.

(** ** The model of [pd.read_csv] *)

(** A frame as the tokenizer fills it: the column labels and, for every
    cell, the field of the file the cell is read from (the empty field
    where the row is short).  The values pandas makes of the fields are kept
    apart, see [value] below. *)
Record DataFrame := {
  columns : list string;
  rows : list (list string)
}.

(** The tokenizer's physical lines: the text cut at every "\n"; a final
    newline does not open one more line. *)
Fixpoint drop_final_empty (pieces : list string) : list string :=
  match pieces with
  | [] => []
  | [piece] => if String.eqb piece "" then [] else [piece]
  | piece :: pieces' => piece :: drop_final_empty pieces'
  end.

Definition physical_lines (text : string) : list string :=
  drop_final_empty (split_on LF text).

(** [skip_blank_lines=True]: with a tab separator, a line that is empty or
    holds only spaces is not a record. *)
Definition is_blank (line : string) : bool :=
  forallb (Ascii.eqb SP) (String.list_ascii_of_string line).

(** The records left after [skiprows] physical lines are dropped. *)
Definition csv_records (text : string) (skiprows : nat) : list (list string) :=
  split_on TAB <$> filter (λ l, ¬ is_blank l) (drop skiprows (physical_lines text)).

(** The header row the parse sees: the first record. *)
Definition csv_header (text : string) (skiprows : nat) : option (list string) :=
  head (csv_records text skiprows).

(** The cells of [row] under the header labels that [use] accepts, in file
    order.  A missing trailing field is NaN, kept as the empty text. *)
Fixpoint select_cells (header : list string) (use : string → bool)
    (row : list string) : list string :=
  match header with
  | [] => []
  | h :: hs =>
      if use h then hd "" row :: select_cells hs use (tl row)
      else select_cells hs use (tl row)
  end.

Definition use_col (usecols : option (list string)) (label : string) : bool :=
  match usecols with
  | None => true
  | Some names => bool_decide (label ∈ names)
  end.

(** [pd.read_csv(text, sep="\t", skiprows=skiprows, usecols=usecols)].
    Every name of [usecols] must be a header label (otherwise ValueError,
    "Usecols do not match columns"); the columns of the result come in the
    order of the file, whatever the order of [usecols].  Rows with more
    fields than the header are at the edge of the model, which refuses
    them; the properties below are stated for rows that fit the header. *)
Definition read_csv (text : string) (skiprows : nat)
    (usecols : option (list string)) : result DataFrame :=
  match csv_records text skiprows with
  | [] => Err EmptyDataError
  | header :: data =>
      match filter (λ name, name ∉ header) (default [] usecols) with
      | (_ :: _) as missing => Err (UsecolsError missing)
      | [] =>
          if existsb (λ row, Nat.ltb (length header) (length row)) data
          then Err ParserError
          else Ok {| columns := filter (λ h, use_col usecols h) header;
                     rows := select_cells header (use_col usecols) <$> data |}
      end
  end.

(** [df[name]]: the cells of the first column labelled [name]. *)
Definition column (df : DataFrame) (name : string) : option (list string) :=
  '(i, _) ← list_find (λ c, c = name) (columns df);
  Some ((λ row, default "" (row !! i)) <$> rows df).

(** [df.rename(columns=mapping)]: labels absent from the mapping stay. *)
Definition rename (mapping : gmap string string) (df : DataFrame) : DataFrame :=
  {| columns := (λ c, default c (mapping !! c)) <$> columns df;
     rows := rows df |}.

(** ** Values *)

(** What a cell of a pandas frame holds: a string, a number or boolean
    (given by its printed form), or the missing value. *)
Inductive value :=
| Str (s : string)
| Num (shown : string)
| NaN.

#[global] Instance value_eq_dec : EqDecision value.
Proof. solve_decision. Defined.

(** The strings among some values.  A value that is not a string is a
    member of no set of strings. *)
Definition strings (values : list value) : list string :=
  omap (λ v, match v with Str s => Some s | _ => None end) values.



(** ** Loading the metadata (etl_gtex.py, lines 37-38) *)

(** [meta.loc[meta.SMTSD == "Liver", "SAMPID"]] *)
Definition liver_ids (meta : DataFrame) : result (list string) :=
  match column meta "SMTSD" with
  | None => Err (AttributeError "SMTSD")
  | Some smtsd =>
      match column meta "SAMPID" with
      | None => Err (KeyError "SAMPID")
      | Some sampid =>
          Ok ((filter (λ p, p.1 = "Liver") (zip smtsd sampid)).*2)
      end
  end.

(** Lines 37-38: parse the metadata text, pick the liver samples. *)
Definition candidate_ids (meta_text : string) : result (list string) :=
  meta ← read_csv meta_text 0 None;
  liver_ids meta.

(** ** Paths *)

Definition RAW : string := "data_raw".
Definition PQ : string := "data_parquet".

(** [dir / name] *)
Definition path_join (dir name : string) : string := dir +:+ "/" +:+ name.

Definition gct_path : string :=
  path_join RAW "GTEx_Analysis_2017-06-05_v8_RNASeQCv1.1.9_gene_reads.gct.gz".
Definition meta_path : string :=
  path_join RAW "GTEx_Analysis_v8_Annotations_SampleAttributesDS.txt".
Definition parquet_out : string := path_join PQ "gtex_liver.parquet".

(** [path.name]: the last component. *)
Definition path_name (path : string) : string :=
  default path (last (split_on "/"%char path)).

(** ** The Transformer (etl_gtex.py) *)

(** The progress lines the script prints. *)
Inductive message :=
| LiverSamples (n : nat)
| LiverFound (requested found : nat)
| ParquetSaved (path : string)
| ExistsSkip (fname : string)
| Downloading (tag : string)
| Saved (dest : string).

(** What one MLflow run records. *)
Record run_record := {
  params : list (string * string);
  metrics : list (string * nat);
  artifact : string
}.

(** What a run produces: the frame [df] (labels, and per cell the field
    it is read from), the values of its cells, the bytes written at
    [parquet_out], the lines printed and the MLflow record. *)
Record etl_output := {
  df : DataFrame;
  cells : list (list value);
  written : string;
  printed : list message;
  run : run_record
}.

Definition gzip_magic : string := String "031" (String "139" "").

(** The first two bytes of the file are 0x1F 0x8B. *)
Definition has_gzip_magic (raw : string) : Prop :=
  ∃ rest, raw = String "031" (String "139" rest).

Inductive handle :=
| GzipText (raw : string)
| PlainText (raw : string).

(** [smart_open]: the first two bytes decide, the name of [path] is never
    looked at. *)
Definition smart_open (fs : gmap string string) (path : string) : result handle :=
  match fs !! path with
  | None => Err (FileNotFoundError path)
  | Some raw =>
      let magic := String.substring 0 2 raw in
      if String.eqb magic gzip_magic then Ok (GzipText raw)
      else Ok (PlainText raw)
  end.

(** [pd.read_csv(path)] opens the path itself; for a name ending in ".txt"
    it infers no compression. *)
Definition open_plain (fs : gmap string string) (path : string) : result string :=
  match fs !! path with
  | None => Err (FileNotFoundError path)
  | Some raw => Ok (universal_newlines raw)
  end.

Definition renamed_columns : gmap string string :=
  {[ "Name" := "gene_id"; "Description" := "gene_symbol" ]}.

(** The library calls whose results the scripts only pass on. *)
Class Libraries := {
  (** Line 37 parses the whole metadata file at once ([low_memory=False]):
      the value of a cell is a function of the fields of its column and of
      its own field. *)
  infer : list string → string → value;
  (** Lines 51-56: the values pandas holds in the cells of the frame it
      loads from the matrix text. *)
  matrix_cells : string → DataFrame → list (list value);
  (** Line 60, [pa.Table.from_pandas] and [pq.write_table]: the bytes of
      the Parquet file for the labels and values of a table, or the writer's
      failure (labels that are not distinct, a column Arrow cannot hold). *)
  to_parquet : list string → list (list value) → result string;
  (** Lines 64-71: the files MLflow writes for one run, with their paths
      below the tracking directory.  They may depend on what the store
      holds and on what differs from run to run (run identifier, clock). *)
  mlflow_store :
    string → gmap string string → run_record → string → list (string * string)
}.

(** Lines 37-38 with the values pandas gives the SAMPID cells. *)
Definition candidate_values `{!Libraries} (meta_text : string)
  : result (list value) :=
  meta ← read_csv meta_text 0 None;
  ids ← liver_ids meta;
  Ok (map (infer (default [] (column meta "SAMPID"))) ids).

(** Lines 60-71: write the table, then print and log the run. *)
Definition save_and_log `{!Libraries} (liver : list value) (keep : list string)
    (table : DataFrame) (values : list (list value)) : result etl_output :=
  encoded ← to_parquet (columns table) values;
  Ok {| df := table;
        cells := values;
        written := encoded;
        printed := [LiverSamples (length liver);
                    LiverFound (length liver) (length keep);
                    ParquetSaved parquet_out];
        run := {| params := [("gct_file", path_name gct_path);
                             ("meta_file", path_name meta_path)];
                  metrics := [("liver_samples", length liver);
                              ("genes", length (rows table))];
                  artifact := parquet_out |} |}.

(** Lines 37-71 of the script, over the two ways of reading its inputs.
    The matrix is read twice, once per pass.  Line 47 tests every candidate
    for membership in the set of header labels; only a string can be a
    member. *)
Definition pipeline `{!Libraries} (read_meta read_gct : result string)
  : result etl_output :=
  meta_text ← read_meta;
  liver ← candidate_values meta_text;
  fhdr ← read_gct;
  cols ← col_names fhdr;
  let keep := keep_ids (strings liver) (gct_samples cols) in
  matrix_text ← read_gct;
  loaded ← read_csv matrix_text 2 (Some ("Name" :: "Description" :: keep));
  save_and_log liver keep (rename renamed_columns loaded)
               (matrix_cells matrix_text loaded).

(** The pipeline on the text of the two inputs. *)
Definition etl `{!Libraries} (meta_text gct_text : string) : result etl_output :=
  pipeline (Ok meta_text) (Ok gct_text).

Section Gzip.

(** [gzip]'s decoder is a library: any function from the bytes of a file to
    the decompressed bytes, or nothing when the stream is rejected. *)
Variable gzip_decompress : string → option string.

(** Reading a handle to the end. *)
Definition read_text (h : handle) : result string :=
  match h with
  | GzipText raw =>
      match gzip_decompress raw with
      | Some plain => Ok (universal_newlines plain)
      | None => Err BadGzipFile
      end
  | PlainText raw => Ok (universal_newlines raw)
  end.

Definition open_text (fs : gmap string string) (path : string) : result string :=
  h ← smart_open fs path; read_text h.

(** The script run against a file system. *)
Definition transformer `{!Libraries} (fs : gmap string string)
  : result etl_output :=
  pipeline (open_plain fs meta_path) (open_text fs gct_path).

End Gzip.





(** ** The Fetcher (download_gtex.py) *)

(** The file table, in the order the dictionary is iterated:
    tag, local name, URL. *)
Definition FILES : list (string * (string * string)) :=
  [("gct",
    ("GTEx_gene_reads.gct.gz",
     "https://storage.googleapis.com/gtex_analysis_v8/rna_seq_data/" +:+
     "GTEx_Analysis_2017-06-05_v8_RNASeQCv1.1.9_gene_reads.gct.gz"));
   ("samp",
    ("GTEx_sample_attrs.txt",
     "https://storage.googleapis.com/gtex_analysis_v8/annotations/" +:+
     "GTEx_Analysis_v8_Annotations_SampleAttributesDS.txt"))].

(** What retrieving a URL does: the whole body arrives; or the transfer
    breaks after part of the body was written; or it fails before the
    destination is opened. *)
Inductive transfer :=
| Delivered (body : string)
| Truncated (partial : string)
| Refused.

Record world := {
  files : gmap string string;
  remote : string → transfer;
  transfers : list string;
  stdout : list message
}.

(** Code that reads and writes the world and may raise. *)
Definition io (A : Type) : Type := world → result A * world.

#[global] Instance io_ret : MRet io := λ A a w, (Ok a, w).
#[global] Instance io_bind : MBind io := λ A B f m w,
  match m w with
  | (Ok a, w') => f a w'
  | (Err e, w') => (Err e, w')
  end.

Definition print (msg : message) : io unit := λ w,
  (Ok (), {| files := files w; remote := remote w;
             transfers := transfers w; stdout := stdout w ++ [msg] |}).

(** [dest.exists()] *)
Definition path_exists (dest : string) : io bool := λ w,
  (Ok (bool_decide (is_Some (files w !! dest))), w).

(** [urllib.request.urlretrieve(url, dest)]; every call is logged in
    [transfers]. *)
Definition urlretrieve (url dest : string) : io unit := λ w,
  let started := transfers w ++ [url] in
  match remote w url with
  | Delivered body =>
      (Ok (), {| files := <[dest := body]> (files w); remote := remote w;
                 transfers := started; stdout := stdout w |})
  | Truncated partial =>
      (Err (URLError url),
       {| files := <[dest := partial]> (files w); remote := remote w;
          transfers := started; stdout := stdout w |})
  | Refused =>
      (Err (URLError url),
       {| files := files w; remote := remote w;
          transfers := started; stdout := stdout w |})
  end.

Definition fetch (tag fname url : string) : io string :=
  let dest := path_join RAW fname in
  present ← path_exists dest;
  if present : bool then
    print (ExistsSkip fname);;
    mret dest
  else
    print (Downloading tag);;
    urlretrieve url dest;;
    print (Saved dest);;
    mret dest.

(** The loop of the main block over a file table. *)
Fixpoint fetch_all (table : list (string * (string * string))) : io unit :=
  match table with
  | [] => mret ()
  | (tag, (fname, url)) :: table' =>
      fetch tag fname url;;
      fetch_all table'
  end.

Definition main : io unit := fetch_all FILES.

(** The paths a file table is saved under. *)
Definition destinations (table : list (string * (string * string)))
  : list string :=
  (λ entry, path_join RAW entry.2.1) <$> table.

(** ** The GCT layout *)

(** Line 3 of a GCT file is the column header: two descriptive labels, then
    one label per sample.  The lines after it that are not blank are the
    gene rows. *)
Definition matrix_header (text : string) : option (list string) :=
  line ← iter_lines text !! 2;
  Some (split_on TAB (rstrip_nl line)).

Definition matrix_rows (text : string) : list (list string) :=
  split_on TAB <$>
    filter (λ l, ¬ is_blank l) (rstrip_nl <$> drop 3 (iter_lines text)).

(** A row's key: gene identifier and gene symbol, its two leading cells. *)
Definition row_key (row : list string) : string * string :=
  (default "" (row !! 0), default "" (row !! 1)).

(** A matrix text laid out as a GCT file over [samples]: the header row is
    Name, Description and the sample labels, and no gene row has more
    fields than the header. *)
Definition gct_layout (text : string) (samples : list string) : Prop :=
  matrix_header text = Some ("Name" :: "Description" :: samples) ∧
  Forall (λ row, length row ≤ 2 + length samples) (matrix_rows text).

#[global] Instance gct_layout_dec (text : string) (samples : list string) :
  Decision (gct_layout text samples).
Proof. unfold gct_layout. apply _. Defined.

(** The matrix texts the properties of the written table are stated for:
    plain text laid out as a GCT file whose labels are pairwise distinct and
    none of them empty, so that pandas keeps every label as it is written. *)
Definition gct_table (text : string) (samples : list string) : Prop :=
  plain_text text ∧ gct_layout text samples ∧
  NoDup ("Name" :: "Description" :: samples) ∧ "" ∉ samples.

#[global] Instance gct_table_dec (text : string) (samples : list string) :
  Decision (gct_table text samples).
Proof. unfold gct_table. apply _. Defined.

(** The column labels of the table a run writes, and the keys of its rows
    as values. *)
Definition output_columns (r : result etl_output) : result (list string) :=
  out ← r; Ok (columns (df out)).


(** ** Stand-ins for the libraries, for the examples *)

(** The tokens pandas reads as the missing value. *)
Definition na_values : list string :=
  [""; "#N/A"; "#N/A N/A"; "#NA"; "-1.#IND"; "-1.#QNAN"; "-NaN"; "-nan";
   "1.#IND"; "1.#QNAN"; "<NA>"; "N/A"; "NA"; "NULL"; "NaN"; "None"; "n/a";
   "nan"; "null"].

Definition is_digit (c : ascii) : bool :=
  Nat.leb 48 (nat_of_ascii c) && Nat.leb (nat_of_ascii c) 57.

Definition is_integer (field : string) : bool :=
  negb (String.eqb field "") &&
  forallb is_digit (String.list_ascii_of_string field).

(** Type inference by column: a missing-value token is the missing value;
    in a column of whole numbers and missing values every other field is a
    number; in any other column every other field is a string. *)
Definition sample_infer (fields : list string) (field : string) : value :=
  if bool_decide (field ∈ na_values) then NaN
  else if forallb (λ f, bool_decide (f ∈ na_values) || is_integer f) fields
       then Num field
       else Str field.

Definition sample_cells (text : string) (loaded : DataFrame) : list (list value) :=
  (λ row, imap (λ j field,
                  sample_infer ((λ r, default "" (r !! j)) <$> rows loaded) field)
               row) <$> rows loaded.

Definition show (v : value) : string :=
  match v with Str s => s | Num shown => shown | NaN => "" end.

(** A writer that refuses labels that are not distinct, as Arrow does. *)
Definition sample_writer (labels : list string) (values : list (list value))
  : result string :=
  if bool_decide (NoDup labels)
  then Ok (String.concat (String LF "")
             (String.concat (String TAB "") <$> (labels :: (map show <$> values))))
  else Err (ArrowError "Duplicate column names found").

(** A store that keeps each run in a directory of its own. *)
Definition sample_store (nonce : string) (fs : gmap string string)
    (record : run_record) (encoded : string) : list (string * string) :=
  [(path_join nonce "artifacts/gtex_liver.parquet", encoded);
   (path_join nonce "params/gct_file", path_name gct_path)].

Definition sample_libraries : Libraries :=
  {| infer := sample_infer;
     matrix_cells := sample_cells;
     to_parquet := sample_writer;
     mlflow_store := sample_store |}.

Definition sample_etl : string → string → result etl_output :=
  @etl sample_libraries.

Definition sample_candidates : string → result (list value) :=
  @candidate_values sample_libraries.

Definition sample_transformer (gzip_decompress : string → option string)
  : gmap string string → result etl_output :=
  @transformer gzip_decompress sample_libraries.

(** ** Inputs for the examples *)

Definition tsv_line (fields : list string) : string :=
  String.concat (String TAB "") fields +:+ String LF "".

Definition tsv (table : list (list string)) : string :=
  String.concat "" (tsv_line <$> table).

(** Five samples, of which A, B and C are liver. *)
Definition meta_ABC : string :=
  tsv [["SAMPID"; "SMTS"; "SMTSD"];
       ["A"; "Liver"; "Liver"];
       ["X"; "Lung"; "Lung"];
       ["B"; "Liver"; "Liver"];
       ["Y"; "Blood"; "Whole Blood"];
       ["C"; "Liver"; "Liver"]].


(** Matrices over the samples B, C and D, listed in two orders. *)
Definition gct_BCD : string :=
  tsv [["#1.2"]; ["2"; "3"];
       ["Name"; "Description"; "B"; "C"; "D"];
       ["ENSG01"; "TP53"; "10"; "20"; "30"];
       ["ENSG02"; "ALB"; "40"; "50"; "60"]].

Definition gct_CBD : string :=
  tsv [["#1.2"]; ["2"; "3"];
       ["Name"; "Description"; "C"; "B"; "D"];
       ["ENSG01"; "TP53"; "20"; "10"; "30"];
       ["ENSG02"; "ALB"; "50"; "40"; "60"]].

(** The same matrix with other labels on the two descriptive columns. *)
Definition gct_other_labels : string :=
  tsv [["#1.2"]; ["2"; "3"];
       ["gene"; "symbol"; "B"; "C"; "D"];
       ["ENSG01"; "TP53"; "10"; "20"; "30"];
       ["ENSG02"; "ALB"; "40"; "50"; "60"]].

(** A stand-in decoder for the examples: the magic bytes followed by the
    stored payload. *)
Definition stored_gunzip (raw : string) : option string :=
  if String.eqb (String.substring 0 2 raw) gzip_magic
  then Some (String.substring 2 (String.length raw - 2) raw)
  else None.


Definition fs_plain : gmap string string :=
  {[ meta_path := meta_ABC; gct_path := gct_BCD ]}.

Definition fs_gzipped : gmap string string :=
  {[ meta_path := meta_ABC; gct_path := gzip_magic +:+ gct_BCD ]}.


(** A plain matrix under a name ending in .gz, a compressed one under a
    name ending in .gct. *)
Definition fs_misnamed : gmap string string :=
  {[ "data_raw/plain.gct.gz" := gct_BCD;
     "data_raw/packed.gct" := gzip_magic +:+ gct_BCD ]}.

(** An empty [data_raw] and a network that delivers every body. *)
Definition fresh_world : world :=
  {| files := ∅;
     remote := λ url, Delivered ("body of " +:+ url);
     transfers := [];
     stdout := [] |}.

(** A destination left truncated by an earlier, broken transfer. *)
Definition truncated_world : world :=
  {| files := {[ path_join RAW "GTEx_gene_reads.gct.gz" := "#1." ]};
     remote := λ url, Delivered ("body of " +:+ url);
     transfers := [];
     stdout := [] |}.

(** ** Further inputs for the examples *)

(** The URLs of a file table, and the skip lines a run prints when every
    file of the table is already there. *)
Definition urls (table : list (string * (string * string))) : list string :=
  (λ entry, entry.2.2) <$> table.

Definition skip_lines (table : list (string * (string * string)))
  : list message :=
  (λ entry, ExistsSkip entry.2.1) <$> table.

(** An empty [data_raw] with a network that refuses every connection, and
    one whose transfers break after three bytes. *)
Definition refusing_world : world :=
  {| files := ∅; remote := λ url, Refused; transfers := []; stdout := [] |}.

Definition truncating_world : world :=
  {| files := ∅; remote := λ url, Truncated "#1."; transfers := [];
     stdout := [] |}.



Definition meta_no_SAMPID : string :=
  tsv [["SMTS"; "SMTSD"]; ["Liver"; "Liver"]].

(** Only the metadata is there. *)
Definition fs_no_matrix : gmap string string :=
  {[ meta_path := meta_ABC ]}.


(** An empty file where a matrix could be. *)
Definition fs_empty_file : gmap string string :=
  {[ "data_raw/empty.gct" := "" ]}.


(** The metadata of [meta_ABC] as a table. *)
Definition table_ABC : DataFrame :=
  {| columns := ["SAMPID"; "SMTS"; "SMTSD"];
     rows := [["A"; "Liver"; "Liver"];
              ["X"; "Lung"; "Lung"];
              ["B"; "Liver"; "Liver"];
              ["Y"; "Blood"; "Whole Blood"];
              ["C"; "Liver"; "Liver"]] |}.

(** The liver samples of [meta_ABC] in another order, C twice. *)
Definition meta_CBAC : string :=
  tsv [["SAMPID"; "SMTS"; "SMTSD"];
       ["C"; "Liver"; "Liver"];
       ["B"; "Liver"; "Liver"];
       ["A"; "Liver"; "Liver"];
       ["C"; "Liver"; "Liver"]].


(** Liver samples named by numbers, alone and next to a lung sample X, and
    a matrix over the samples 1 and 2. *)
Definition meta_numbers : string :=
  tsv [["SAMPID"; "SMTS"; "SMTSD"];
       ["1"; "Liver"; "Liver"];
       ["2"; "Liver"; "Liver"]].

Definition meta_numbers_X : string :=
  tsv [["SAMPID"; "SMTS"; "SMTSD"];
       ["1"; "Liver"; "Liver"];
       ["X"; "Lung"; "Lung"];
       ["2"; "Liver"; "Liver"]].

Definition gct_numbers : string :=
  tsv [["#1.2"]; ["2"; "3"];
       ["Name"; "Description"; "1"; "2"];
       ["ENSG01"; "TP53"; "10"; "20"];
       ["ENSG02"; "ALB"; "40"; "50"]].

(** A matrix with a sample labelled gene_id. *)
Definition gct_gene_id : string :=
  tsv [["#1.2"]; ["2"; "3"];
       ["Name"; "Description"; "gene_id"; "C"];
       ["ENSG01"; "TP53"; "10"; "20"]].

Definition meta_gene_id : string :=
  tsv [["SAMPID"; "SMTS"; "SMTSD"];
       ["gene_id"; "Liver"; "Liver"]].


(** * Properties *)

(** Decidable side conditions on closed inputs. *)
Ltac by_evaluation := apply (bool_decide_unpack _); vm_compute; exact I.

(** ** The candidate list *)

Lemma filter_zip_fmap {A} (f g : A → string) (rows : list A) :
  (filter (λ p, p.1 = "Liver") (zip (f <$> rows) (g <$> rows))).*2
  = g <$> filter (λ row, f row = "Liver") rows.
Proof.
  induction rows as [|row rows IH]; [done|].
  cbn [fmap list_fmap zip zip_with]. rewrite !filter_cons. simpl.
  destruct (decide (f row = "Liver")); by rewrite ?fmap_cons, <-IH.
Qed.

(** The candidates are the SAMPID cells of the rows whose SMTSD cell is
    "Liver", in the order of the rows. *)
Lemma liver_ids_rows (meta : DataFrame) (i j : nat) :
  list_find (λ c, c = "SMTSD") (columns meta) = Some (i, "SMTSD") →
  list_find (λ c, c = "SAMPID") (columns meta) = Some (j, "SAMPID") →
  liver_ids meta =
    Ok ((λ row, default "" (row !! j)) <$>
          filter (λ row, default "" (row !! i) = "Liver") (rows meta)).
Proof.
  intros Hi Hj. unfold liver_ids, column. rewrite Hi, Hj. simpl.
  by rewrite filter_zip_fmap.
Qed.

(** ** The effective filter set *)

Lemma sublist_of_filter {A} (P : A → Prop) `{!∀ x, Decision (P x)}
    (l k : list A) :
  l `sublist_of` k → Forall P l → l `sublist_of` filter P k.
Proof.
  induction 1 as [|x l1 l2 _ IH|x l1 l2 _ IH]; intros Hall.
  - apply sublist_nil_l.
  - apply Forall_cons in Hall as [Hx Hall].
    rewrite filter_cons_True by done. apply sublist_skip, IH, Hall.
  - rewrite filter_cons. destruct (decide (P x)); [apply sublist_cons|]; auto.
Qed.

(** C3. For every candidate list and every sample universe, [keep_ids] is
    the subsequence of the candidate list made of exactly the identifiers
    that are in the universe: it is a subsequence of the candidates, an
    identifier is in it iff it is a candidate present in the universe, every
    subsequence of the candidates that stays inside the universe is a
    subsequence of it, and it is no longer than the candidate list. *)
Theorem keep_ids_subsequence (liver : list string) (universe : gset string) :
  keep_ids liver universe `sublist_of` liver ∧
  (∀ sid, sid ∈ keep_ids liver universe ↔ sid ∈ liver ∧ sid ∈ universe) ∧
  (∀ l, l `sublist_of` liver → (∀ sid, sid ∈ l → sid ∈ universe) →
        l `sublist_of` keep_ids liver universe) ∧
  length (keep_ids liver universe) ≤ length liver.
Proof.
  unfold keep_ids. split_and!.
  - apply sublist_filter.
  - intros sid. rewrite list_elem_of_filter. tauto.
  - intros l Hsub Hin. apply sublist_of_filter; [done|].
    by apply Forall_forall.
  - apply length_filter.
Qed.

Lemma elem_of_gct_samples (cols : list string) (sid : string) :
  sid ∈ gct_samples cols ↔ sid ∈ drop 2 cols.
Proof. unfold gct_samples. by rewrite elem_of_list_to_set. Qed.

(** ** The two views of a text: Python's lines and the tokenizer's *)

Lemma split_on_not_nil (sep : ascii) (s : string) : split_on sep s ≠ [].
Proof.
  destruct s as [|c s]; simpl; [done|].
  destruct (Ascii.eqb c sep); [done|]. by destruct (split_on sep s).
Qed.

Lemma iter_lines_nil (s : string) : iter_lines s = [] → s = "".
Proof.
  destruct s as [|c s]; simpl; [done|].
  destruct (Ascii.eqb c LF); [done|]. by destruct (iter_lines s).
Qed.

Lemma rstrip_nl_cons (c : ascii) (s : string) :
  Ascii.eqb c LF = false → rstrip_nl (String c s) = String c (rstrip_nl s).
Proof. intros Hc. simpl. by rewrite Hc. Qed.

Lemma drop_final_empty_cons (p q : string) (ps : list string) :
  drop_final_empty (p :: q :: ps) = p :: drop_final_empty (q :: ps).
Proof. done. Qed.

(** Both passes cut the text into the same lines. *)
Lemma physical_lines_iter (s : string) :
  physical_lines s = rstrip_nl <$> iter_lines s.
Proof.
  unfold physical_lines. induction s as [|c s IH]; [done|].
  pose proof (split_on_not_nil LF s) as Hne.
  cbn [split_on iter_lines]. destruct (Ascii.eqb c LF) eqn:Hc.
  - apply Ascii.eqb_eq in Hc as ->.
    destruct (split_on LF s) as [|p ps]; [done|].
    by rewrite drop_final_empty_cons, IH.
  - destruct (iter_lines s) as [|l ls] eqn:Hl.
    + apply iter_lines_nil in Hl as ->. simpl. by rewrite Hc.
    + destruct (split_on LF s) as [|p ps]; [done|].
      rewrite fmap_cons, rstrip_nl_cons by done.
      rewrite fmap_cons in IH. destruct ps as [|p' ps].
      * simpl in IH. destruct (String.eqb p ""); [done|].
        injection IH as -> <-. done.
      * rewrite drop_final_empty_cons in *.
        injection IH as -> Hrest. by f_equal.
Qed.

Lemma blank_no_tab (line : string) : is_blank line → split_on TAB line = [line].
Proof.
  unfold is_blank. induction line as [|c line IH]; [done|].
  simpl. intros [Hc Hrest]%andb_prop_elim.
  apply Is_true_eq_true, Ascii.eqb_eq in Hc as <-.
  simpl. by rewrite IH.
Qed.

Lemma named_header_not_blank (line : string) (labels : list string) :
  split_on TAB line = "Name" :: labels → ¬ is_blank line.
Proof.
  intros Hsplit Hblank. destruct line as [|c line]; [done|].
  apply andb_prop_elim in Hblank as [Hc _].
  apply Is_true_eq_true, Ascii.eqb_eq in Hc as <-.
  simpl in Hsplit. by destruct (split_on TAB line).
Qed.

(** What the discovery pass returns, by the number of lines of the text. *)
Lemma col_names_short (text : string) :
  length (iter_lines text) < 2 → col_names text = Err StopIteration.
Proof.
  unfold col_names. destruct (iter_lines text) as [|l1 [|l2 ls]]; simpl; [done..|lia].
Qed.

Lemma col_names_two_lines (text l1 l2 : string) :
  iter_lines text = [l1; l2] → col_names text = Ok [""].
Proof. unfold col_names. by intros ->. Qed.

Lemma col_names_third_line (text l1 l2 l3 : string) (ls : list string) :
  iter_lines text = l1 :: l2 :: l3 :: ls →
  col_names text = Ok (split_on TAB (rstrip_nl l3)).
Proof. unfold col_names. by intros ->. Qed.

Lemma col_names_matrix_header (text : string) (header : list string) :
  matrix_header text = Some header → col_names text = Ok header.
Proof.
  unfold matrix_header. intros Hh.
  destruct (iter_lines text) as [|l1 [|l2 [|l3 ls]]] eqn:Hl; simplify_eq/=.
  by rewrite (col_names_third_line _ _ _ _ _ Hl).
Qed.

(** The second parse skips the same two lines and reads the same header and
    the same gene rows. *)
Lemma csv_records_matrix (text : string) (labels : list string) :
  matrix_header text = Some ("Name" :: labels) →
  csv_records text 2 = ("Name" :: labels) :: matrix_rows text.
Proof.
  unfold matrix_header, csv_records, matrix_rows. intros Hh.
  rewrite physical_lines_iter.
  destruct (iter_lines text) as [|l1 [|l2 [|l3 ls]]] eqn:Hl; simplify_eq/=.
  rewrite filter_cons_True by by eapply named_header_not_blank.
  rewrite fmap_cons. by f_equal.
Qed.

(** ** The load pass on a well-formed matrix *)

Lemma filter_iff_in {A} (P Q : A → Prop) `{!∀ x, Decision (P x)}
    `{!∀ x, Decision (Q x)} (l : list A) :
  (∀ x, x ∈ l → P x ↔ Q x) → filter P l = filter Q l.
Proof.
  induction l as [|x l IH]; intros Hiff; [done|].
  rewrite !filter_cons, IH by (intros; apply Hiff; by right).
  destruct (decide (P x)) as [HP|HP], (decide (Q x)) as [HQ|HQ]; try done;
    apply Hiff in HP || apply Hiff in HQ; done || by left.
Qed.

Lemma filter_none {A} (P : A → Prop) `{!∀ x, Decision (P x)} (l : list A) :
  (∀ x, x ∈ l → ¬ P x) → filter P l = [].
Proof.
  induction l as [|x l IH]; intros Hno; [done|].
  rewrite filter_cons_False by (apply Hno; by left).
  apply IH. intros; apply Hno; by right.
Qed.

Lemma no_wide_row (width : nat) (data : list (list string)) :
  Forall (λ row, length row ≤ width) data →
  existsb (λ row, Nat.ltb width (length row)) data = false.
Proof.
  induction 1 as [|row data Hrow _ IH]; [done|].
  simpl. rewrite IH, orb_false_r. apply Nat.ltb_ge, Hrow.
Qed.

(** With all of [usecols] among the labels and no row wider than the
    header, the load pass returns the selected columns of every gene row. *)
Lemma read_csv_matrix (text : string) (samples usecols : list string) :
  let header := "Name" :: "Description" :: samples in
  matrix_header text = Some header →
  (∀ name, name ∈ usecols → name ∈ header) →
  Forall (λ row, length row ≤ length header) (matrix_rows text) →
  read_csv text 2 (Some usecols) =
    Ok {| columns := filter (λ h, use_col (Some usecols) h) header;
          rows := select_cells header (use_col (Some usecols)) <$>
                    matrix_rows text |}.
Proof.
  intros header Hheader Hin Hwidth. unfold read_csv.
  rewrite (csv_records_matrix _ _ Hheader). fold header.
  rewrite filter_none by (simpl; intros name ?%Hin; tauto).
  by rewrite no_wide_row.
Qed.

Lemma kept_columns (samples keep : list string) :
  NoDup ("Name" :: "Description" :: samples) →
  filter (λ h, use_col (Some ("Name" :: "Description" :: keep)) h)
         ("Name" :: "Description" :: samples)
  = "Name" :: "Description" :: filter (λ s, s ∈ keep) samples.
Proof.
  intros Hnd. apply NoDup_cons in Hnd as [Hname Hnd].
  apply NoDup_cons in Hnd as [Hdesc _].
  rewrite !filter_cons_True
    by (unfold use_col; apply bool_decide_pack; set_solver).
  do 2 f_equal. apply filter_iff_in. intros s Hs. simpl.
  rewrite bool_decide_spec, !elem_of_cons.
  split; [|tauto]. intros [->|[->|?]]; [set_solver..|done].
Qed.

Lemma rename_kept_columns (cols : list string) :
  "Name" ∉ cols → "Description" ∉ cols →
  (λ c, default c (renamed_columns !! c)) <$> ("Name" :: "Description" :: cols)
  = "gene_id" :: "gene_symbol" :: cols.
Proof.
  intros Hname Hdesc. rewrite !fmap_cons. do 2 f_equal.
  rewrite <-(list_fmap_id cols) at 2. apply Forall_fmap_ext_1, Forall_forall.
  intros c Hc. unfold renamed_columns.
  rewrite lookup_insert_ne, lookup_singleton_ne; [done|..];
    intros <-; done.
Qed.

Lemma row_key_select (samples row : list string) (use : string → bool) :
  use "Name" → use "Description" →
  row_key (select_cells ("Name" :: "Description" :: samples) use row)
  = row_key row.
Proof.
  intros Hname Hdesc. cbn [select_cells].
  destruct (use "Name"), (use "Description"); try done.
  by destruct row as [|k1 [|k2 row]].
Qed.

(** ** The Transformer on well-formed input *)

Lemma keep_ids_in_samples (liver samples : list string) (sid : string) :
  sid ∈ keep_ids liver (gct_samples ("Name" :: "Description" :: samples)) ↔
  sid ∈ liver ∧ sid ∈ samples.
Proof.
  unfold keep_ids. rewrite list_elem_of_filter, elem_of_gct_samples.
  cbn [drop]. tauto.
Qed.

Lemma bind_Ok {A B} (a : A) (f : A → result B) : Ok a ≫= f = f a.
Proof. done. Qed.

Lemma bind_Err {A B} (e : error) (f : A → result B) : Err e ≫= f = Err e.
Proof. done. Qed.

Section Runs.

Context `{!Libraries}.


Lemma candidate_values_Err (meta_text : string) (e : error) :
  candidate_ids meta_text = Err e → candidate_values meta_text = Err e.
Proof.
  unfold candidate_ids, candidate_values.
  destruct (read_csv meta_text 0 None) as [meta|e'];
    [|rewrite !bind_Err; congruence].
  rewrite !bind_Ok. intros ->. by rewrite bind_Err.
Qed.

(** A run that ends well has written what the writer returned for the
    table. *)
Lemma save_and_log_Ok_inv (liver : list value) (keep : list string)
    (table : DataFrame) (values : list (list value)) (out : etl_output) :
  save_and_log liver keep table values = Ok out →
  to_parquet (columns table) values = Ok (written out) ∧
  df out = table ∧
  cells out = values ∧
  printed out = [LiverSamples (length liver);
                 LiverFound (length liver) (length keep);
                 ParquetSaved parquet_out] ∧
  metrics (run out) = [("liver_samples", length liver);
                       ("genes", length (rows table))].
Proof.
  unfold save_and_log.
  destruct (to_parquet (columns table) values) as [encoded|e]; [|done].
  rewrite bind_Ok. by intros [= <-].
Qed.


Lemma length_strings (values : list value) :
  length (strings values) ≤ length values.
Proof.
  unfold strings. induction values as [|[s| |] values IH]; [done|..];
    cbn [omap list_omap length]; lia.
Qed.

(** The table a run loads from a matrix laid out as a GCT file, and what
    the run does with it. *)
Lemma etl_gct_layout (meta_text gct_text : string)
    (liver : list value) (samples : list string) :
  let header := "Name" :: "Description" :: samples in
  let keep := keep_ids (strings liver) (gct_samples header) in
  let usecols := Some ("Name" :: "Description" :: keep) in
  candidate_values meta_text = Ok liver →
  gct_layout gct_text samples →
  ∃ loaded, read_csv gct_text 2 usecols = Ok loaded ∧
    columns loaded = filter (λ h, use_col usecols h) header ∧
    rows loaded = select_cells header (use_col usecols) <$> matrix_rows gct_text ∧
    etl meta_text gct_text =
      save_and_log liver keep (rename renamed_columns loaded)
                   (matrix_cells gct_text loaded).
Proof.
  intros header keep usecols Hmeta [Hheader Hwidth].
  assert (read_csv gct_text 2 usecols =
            Ok {| columns := filter (λ h, use_col usecols h) header;
                  rows := select_cells header (use_col usecols) <$>
                            matrix_rows gct_text |}) as Hload.
  { apply read_csv_matrix; [done| |done].
    intros name. rewrite !elem_of_cons.
    intros [->|[->|Hin%keep_ids_in_samples]]; tauto. }
  eexists. split_and!; [exact Hload|done..|].
  unfold etl, pipeline. rewrite bind_Ok, Hmeta, !bind_Ok.
  rewrite (col_names_matrix_header _ _ Hheader), !bind_Ok.
  fold header keep usecols. by rewrite Hload, bind_Ok.
Qed.

Lemma distinct_labels (samples : list string) :
  NoDup ("Name" :: "Description" :: samples) →
  NoDup samples ∧ ("Name" ∉ samples) ∧ ("Description" ∉ samples).
Proof.
  intros [Hname [Hdesc Hnd]%NoDup_cons]%NoDup_cons.
  split_and!; [done| |done]. intros Hin. apply Hname. by right.
Qed.

Lemma written_columns (samples keep : list string) :
  NoDup ("Name" :: "Description" :: samples) →
  (λ c, default c (renamed_columns !! c)) <$>
    filter (λ h, use_col (Some ("Name" :: "Description" :: keep)) h)
           ("Name" :: "Description" :: samples)
  = "gene_id" :: "gene_symbol" :: filter (λ s, s ∈ keep) samples.
Proof.
  intros Hnd. rewrite kept_columns by done.
  apply distinct_labels in Hnd as (_ & Hname & Hdesc).
  apply rename_kept_columns; rewrite list_elem_of_filter; tauto.
Qed.

(** C2. The sample columns follow the header of the matrix.  For plain
    metadata and a plain matrix laid out as a GCT file with distinct
    labels, with the candidates as pandas reads them: the table handed to
    the writer has the columns gene_id, gene_symbol, then the sample labels
    of the header that are in the effective filter set, in the order of the
    header; each identifier of the effective filter set occurs among them,
    and occurs once.  The run ends as the writer does on that table, and a
    run that ends well has written these columns. *)
Theorem output_columns_in_header_order (meta_text gct_text : string)
    (liver : list value) (samples : list string) :
  let keep :=
    keep_ids (strings liver) (gct_samples ("Name" :: "Description" :: samples)) in
  let kept := filter (λ s, s ∈ keep) samples in
  plain_text meta_text →
  candidate_values meta_text = Ok liver →
  gct_table gct_text samples →
  NoDup kept ∧
  (∀ sid, sid ∈ kept ↔ sid ∈ keep) ∧
  ∃ loaded,
    read_csv gct_text 2 (Some ("Name" :: "Description" :: keep)) = Ok loaded ∧
    columns (rename renamed_columns loaded) = "gene_id" :: "gene_symbol" :: kept ∧
    etl meta_text gct_text =
      save_and_log liver keep (rename renamed_columns loaded)
                   (matrix_cells gct_text loaded) ∧
    ∀ out, etl meta_text gct_text = Ok out →
           columns (df out) = "gene_id" :: "gene_symbol" :: kept.
Proof.
  intros keep kept _ Hmeta (_ & Hlayout & Hnd & _).
  destruct (etl_gct_layout _ _ _ _ Hmeta Hlayout)
    as (loaded & Hload & Hcols & _ & Hrun).
  assert (columns (rename renamed_columns loaded)
          = "gene_id" :: "gene_symbol" :: kept) as Hwritten
    by (simpl; by rewrite Hcols, written_columns).
  split_and!.
  - apply NoDup_filter. by apply distinct_labels in Hnd as [? _].
  - intros sid. unfold kept. rewrite list_elem_of_filter.
    unfold keep. rewrite keep_ids_in_samples. tauto.
  - exists loaded. split_and!; [done..|].
    intros out Hout. rewrite Hrun in Hout.
    apply save_and_log_Ok_inv in Hout as (_ & -> & _). done.
Qed.





(** C8, as the code has it.  For plain metadata and a plain matrix laid out
    as a GCT file with distinct labels, whose two leading labels are Name
    and Description, the first two columns of the table handed to the
    writer are named gene_id and gene_symbol; the run ends as the writer
    does on that table, and a run that ends well has written a table whose
    first two columns carry these names. *)
Theorem descriptive_columns_renamed (meta_text gct_text : string)
    (liver : list value) (samples : list string) :
  let keep :=
    keep_ids (strings liver) (gct_samples ("Name" :: "Description" :: samples)) in
  plain_text meta_text →
  candidate_values meta_text = Ok liver →
  gct_table gct_text samples →
  ∃ loaded,
    read_csv gct_text 2 (Some ("Name" :: "Description" :: keep)) = Ok loaded ∧
    take 2 (columns loaded) = ["Name"; "Description"] ∧
    take 2 (columns (rename renamed_columns loaded)) = ["gene_id"; "gene_symbol"] ∧
    etl meta_text gct_text =
      save_and_log liver keep (rename renamed_columns loaded)
                   (matrix_cells gct_text loaded) ∧
    ∀ out, etl meta_text gct_text = Ok out →
           take 2 (columns (df out)) = ["gene_id"; "gene_symbol"].
Proof.
  intros keep _ Hmeta (_ & Hlayout & _).
  destruct (etl_gct_layout _ _ _ _ Hmeta Hlayout)
    as (loaded & Hload & Hcols & _ & Hrun).
  assert (take 2 (columns loaded) = ["Name"; "Description"]) as Hraw.
  { rewrite Hcols.
    rewrite !filter_cons_True
      by (unfold use_col; apply bool_decide_pack; set_solver).
    done. }
  assert (take 2 (columns (rename renamed_columns loaded))
          = ["gene_id"; "gene_symbol"]) as Hnames.
  { simpl. rewrite Hcols.
    rewrite !filter_cons_True
      by (unfold use_col; apply bool_decide_pack; set_solver).
    done. }
  exists loaded. split_and!; [done..|].
  intros out Hout. rewrite Hrun in Hout.
  by apply save_and_log_Ok_inv in Hout as (_ & -> & _).
Qed.

(** The rename is keyed on the labels: a header without Name or without
    Description is refused by the load pass. *)
Lemma missing_label_rejected (meta_text gct_text : string)
    (liver : list value) (cols header : list string) :
  candidate_values meta_text = Ok liver →
  col_names gct_text = Ok cols →
  csv_header gct_text 2 = Some header →
  "Name" ∉ header ∨ "Description" ∉ header →
  ∃ missing, etl meta_text gct_text = Err (UsecolsError missing).
Proof.
  intros Hmeta Hcols Hheader Hlabel.
  unfold etl, pipeline. rewrite bind_Ok, Hmeta, !bind_Ok, Hcols, !bind_Ok.
  unfold read_csv. unfold csv_header in Hheader.
  destruct (csv_records gct_text 2) as [|? data]; simplify_eq/=.
  destruct Hlabel as [Hname|Hdesc].
  - rewrite filter_cons_True by done. by eexists.
  - rewrite (filter_cons _ "Name").
    destruct (decide ("Name" ∉ header));
      rewrite filter_cons_True by done; by eexists.
Qed.

End Runs.

(** ** The two passes agree on the header *)

Lemma keep_ids_in_csv_header (text : string) (liver cols header : list string) :
  col_names text = Ok cols →
  csv_header text 2 = Some header →
  ∀ sid, sid ∈ keep_ids liver (gct_samples cols) → sid ∈ header.
Proof.
  intros Hcols Hheader sid [Hsid%elem_of_gct_samples _]%list_elem_of_filter.
  unfold csv_header, csv_records in Hheader.
  rewrite physical_lines_iter in Hheader.
  destruct (iter_lines text) as [|l1 [|l2 [|l3 ls]]] eqn:Hl.
  - by rewrite col_names_short in Hcols by (rewrite Hl; simpl; lia).
  - by rewrite col_names_short in Hcols by (rewrite Hl; simpl; lia).
  - rewrite (col_names_two_lines _ _ _ Hl) in Hcols. by simplify_eq.
  - rewrite (col_names_third_line _ _ _ _ _ Hl) in Hcols. simplify_eq.
    cbn [fmap list_fmap drop] in Hheader. rewrite filter_cons in Hheader.
    destruct (decide (¬ is_blank (rstrip_nl l3))) as [Hline|Hline].
    + simplify_eq/=. by eapply subseteq_drop.
    + apply dec_stable in Hline. rewrite (blank_no_tab _ Hline) in Hsid.
      by apply not_elem_of_nil in Hsid.
Qed.

Lemma csv_header_matrix (text : string) (labels : list string) :
  matrix_header text = Some ("Name" :: labels) →
  csv_header text 2 = Some ("Name" :: labels).
Proof. intros Hheader. unfold csv_header. by rewrite (csv_records_matrix _ _ Hheader). Qed.

Lemma load_pass_labels_found (text : string)
    (liver cols samples missing : list string) :
  matrix_header text = Some ("Name" :: "Description" :: samples) →
  col_names text = Ok cols →
  read_csv text 2
    (Some ("Name" :: "Description" :: keep_ids liver (gct_samples cols)))
  ≠ Err (UsecolsError missing).
Proof.
  intros Hheader Hcols.
  pose proof (keep_ids_in_csv_header _ liver _ _ Hcols
                (csv_header_matrix _ _ Hheader)) as Hkeep.
  unfold read_csv. rewrite (csv_records_matrix _ _ Hheader).
  rewrite filter_none; [by destruct (existsb _ _)|].
  simpl. intros name [->|[->|Hin%Hkeep]%elem_of_cons]%elem_of_cons Hout;
    apply Hout; [set_solver..|done].
Qed.

(** C10. Both passes skip the same two lines and read the same header.
    For a plain matrix whose third line is the header row Name, Description
    and then the samples, with labels that are distinct and not empty: the
    discovery pass and the load pass see that same header, every identifier
    of the effective filter set is one of its labels, whatever the
    candidates are, and the load pass does not end in the "Usecols do not
    match columns" failure. *)
Theorem usecols_failure_unreachable (gct_text : string)
    (liver : list value) (samples : list string) :
  let header := "Name" :: "Description" :: samples in
  let keep := keep_ids (strings liver) (gct_samples header) in
  plain_text gct_text →
  matrix_header gct_text = Some header →
  NoDup header →
  "" ∉ samples →
  col_names gct_text = Ok header ∧
  csv_header gct_text 2 = Some header ∧
  (∀ sid, sid ∈ keep → sid ∈ header) ∧
  (∀ missing, read_csv gct_text 2 (Some ("Name" :: "Description" :: keep))
              ≠ Err (UsecolsError missing)).
Proof.
  intros header keep _ Hheader _ _.
  pose proof (col_names_matrix_header _ _ Hheader) as Hcols.
  pose proof (csv_header_matrix _ _ Hheader) as Hcsv.
  split_and!; [done..| |].
  - by apply (keep_ids_in_csv_header gct_text (strings liver) header header).
  - intros missing. by apply load_pass_labels_found with samples.
Qed.

(** ** Opening files *)

Lemma magic_test (raw : string) :
  String.eqb (String.substring 0 2 raw) gzip_magic = true ↔ has_gzip_magic raw.
Proof.
  rewrite String.eqb_eq. unfold has_gzip_magic, gzip_magic. split.
  - destruct raw as [|b1 [|b2 rest]]; simpl; intros [=]. subst.
    eexists. reflexivity.
  - intros [rest ->]. simpl. by destruct rest.
Qed.

Lemma smart_open_gzip (fs : gmap string string) (path raw : string) :
  fs !! path = Some raw → has_gzip_magic raw →
  smart_open fs path = Ok (GzipText raw).
Proof.
  intros Hfile Hmagic%magic_test. unfold smart_open. by rewrite Hfile, Hmagic.
Qed.

Lemma smart_open_plain (fs : gmap string string) (path raw : string) :
  fs !! path = Some raw → ¬ has_gzip_magic raw →
  smart_open fs path = Ok (PlainText raw).
Proof.
  intros Hfile Hmagic. unfold smart_open. rewrite Hfile.
  destruct (String.eqb _ gzip_magic) eqn:Htest; [|done].
  by apply magic_test in Htest.
Qed.

Section GzipProperties.

Context `{!Libraries}.
Variable gzip_decompress : string → option string.

(** C5. The content decides, not the name.  For every file, [smart_open]
    returns the gzip-decoding handle iff the file starts with the bytes
    0x1F 0x8B, and the plain handle otherwise.  Hence, under any two names,
    a compressed file and its decompressed plain-text counterpart read as
    the same text. *)
Theorem smart_open_by_content (fs : gmap string string)
    (packed_path plain_path packed plain : string) :
  fs !! packed_path = Some packed →
  fs !! plain_path = Some plain →
  has_gzip_magic packed →
  gzip_decompress packed = Some plain →
  ¬ has_gzip_magic plain →
  (∀ path raw, fs !! path = Some raw →
     (smart_open fs path = Ok (GzipText raw) ↔ has_gzip_magic raw) ∧
     (smart_open fs path = Ok (PlainText raw) ↔ ¬ has_gzip_magic raw)) ∧
  open_text gzip_decompress fs packed_path = Ok (universal_newlines plain) ∧
  open_text gzip_decompress fs plain_path = Ok (universal_newlines plain).
Proof.
  intros Hpacked Hplain Hmagic Hdecode Hnomagic. split_and!.
  - intros path raw Hfile.
    assert (has_gzip_magic raw ∨ ¬ has_gzip_magic raw) as [Hraw|Hraw]
      by (rewrite <-magic_test; destruct (String.eqb _ gzip_magic); auto).
    + rewrite (smart_open_gzip _ _ _ Hfile Hraw). split; split; done.
    + rewrite (smart_open_plain _ _ _ Hfile Hraw). split; split; done.
  - unfold open_text. rewrite (smart_open_gzip _ _ _ Hpacked Hmagic), bind_Ok.
    simpl. by rewrite Hdecode.
  - unfold open_text. by rewrite (smart_open_plain _ _ _ Hplain Hnomagic), bind_Ok.
Qed.

(** A run against the file system is the pipeline on the text of its two
    inputs. *)
Lemma transformer_etl (fs : gmap string string) (meta_raw gct_text : string) :
  fs !! meta_path = Some meta_raw →
  open_text gzip_decompress fs gct_path = Ok gct_text →
  transformer gzip_decompress fs = etl (universal_newlines meta_raw) gct_text.
Proof.
  intros Hmeta Hgct. unfold transformer, etl, open_plain. by rewrite Hmeta, Hgct.
Qed.

(** ** Determinism *)







End GzipProperties.

(** ** The Fetcher *)

Lemma fetch_existing (tag fname url : string) (w : world) :
  is_Some (files w !! path_join RAW fname) →
  fetch tag fname url w =
    (Ok (path_join RAW fname),
     {| files := files w; remote := remote w; transfers := transfers w;
        stdout := stdout w ++ [ExistsSkip fname] |}).
Proof.
  intros Hdest. unfold fetch, mbind, io_bind, path_exists.
  by rewrite bool_decide_eq_true_2.
Qed.

Lemma fetch_absent (tag fname url : string) (w : world) :
  files w !! path_join RAW fname = None →
  fetch tag fname url w =
    let dest := path_join RAW fname in
    let started := transfers w ++ [url] in
    match remote w url with
    | Delivered body =>
        (Ok dest,
         {| files := <[dest := body]> (files w); remote := remote w;
            transfers := started;
            stdout := (stdout w ++ [Downloading tag]) ++ [Saved dest] |})
    | Truncated partial =>
        (Err (URLError url),
         {| files := <[dest := partial]> (files w); remote := remote w;
            transfers := started; stdout := stdout w ++ [Downloading tag] |})
    | Refused =>
        (Err (URLError url),
         {| files := files w; remote := remote w;
            transfers := started; stdout := stdout w ++ [Downloading tag] |})
    end.
Proof.
  intros Hdest. unfold fetch, mbind, io_bind, path_exists.
  rewrite bool_decide_eq_false_2 by (rewrite Hdest; by intros [? ?]).
  unfold print, urlretrieve. simpl. by destruct (remote w url).
Qed.

(** A fetch writes at its destination only, and removes nothing. *)
Lemma fetch_frame (tag fname url path : string) (w w' : world) (r : result string) :
  fetch tag fname url w = (r, w') →
  path ≠ path_join RAW fname →
  files w' !! path = files w !! path.
Proof.
  intros Hfetch Hpath.
  destruct (files w !! path_join RAW fname) as [content|] eqn:Hdest.
  - rewrite fetch_existing in Hfetch by by rewrite Hdest. by simplify_eq.
  - rewrite fetch_absent in Hfetch by done.
    destruct (remote w url); simplify_eq/=; by rewrite ?lookup_insert_ne.
Qed.

Lemma fetch_keeps (tag fname url path : string) (w w' : world) (r : result string) :
  fetch tag fname url w = (r, w') →
  is_Some (files w !! path) → is_Some (files w' !! path).
Proof.
  intros Hfetch Hpath.
  destruct (files w !! path_join RAW fname) as [content|] eqn:Hdest.
  - rewrite fetch_existing in Hfetch by by rewrite Hdest. by simplify_eq.
  - rewrite fetch_absent in Hfetch by done.
    destruct (remote w url); simplify_eq/=; try done;
      rewrite lookup_insert; by case_decide.
Qed.

Lemma fetch_returns (tag fname url : string) (w w' : world) (dest : string) :
  fetch tag fname url w = (Ok dest, w') →
  dest = path_join RAW fname ∧ is_Some (files w' !! dest).
Proof.
  intros Hfetch.
  destruct (files w !! path_join RAW fname) as [content|] eqn:Hdest.
  - rewrite fetch_existing in Hfetch by by rewrite Hdest.
    simplify_eq/=. by rewrite Hdest.
  - rewrite fetch_absent in Hfetch by done.
    destruct (remote w url); simplify_eq/=. by rewrite lookup_insert_eq.
Qed.

(** C6. Where the destination exists, whatever it holds, [fetch] requests
    no transfer, leaves every file as it was, prints the skip line and
    returns the destination path; and from any world, two calls of [fetch]
    in a row request at most one transfer. *)
Theorem fetch_skips_existing (tag fname url content : string) (w : world) :
  files w !! path_join RAW fname = Some content →
  fetch tag fname url w =
    (Ok (path_join RAW fname),
     {| files := files w; remote := remote w; transfers := transfers w;
        stdout := stdout w ++ [ExistsSkip fname] |}) ∧
  ∀ w0 : world,
    length (transfers ((fetch tag fname url;; fetch tag fname url) w0).2)
    ≤ S (length (transfers w0)).
Proof.
  intros Hdest. split; [apply fetch_existing; by rewrite Hdest|].
  intros w0. unfold mbind, io_bind.
  destruct (files w0 !! path_join RAW fname) as [content0|] eqn:Hdest0.
  - rewrite fetch_existing by by rewrite Hdest0.
    rewrite fetch_existing by (simpl; by rewrite Hdest0).
    simpl. lia.
  - rewrite fetch_absent by done.
    destruct (remote w0 url); simpl; rewrite ?length_app; simpl; try lia.
    rewrite fetch_existing by (simpl; by rewrite lookup_insert_eq).
    simpl. rewrite length_app. simpl. lia.
Qed.

(** The retry the specification warns about: a broken transfer leaves its
    partial file, and the next call takes it for the download. *)
Lemma fetch_after_truncation (tag fname url partial : string) (w : world) :
  files w !! path_join RAW fname = None →
  remote w url = Truncated partial →
  ∃ w1, fetch tag fname url w = (Err (URLError url), w1) ∧
    files w1 !! path_join RAW fname = Some partial ∧
    ∃ w2, fetch tag fname url w1 = (Ok (path_join RAW fname), w2) ∧
      files w2 = files w1 ∧ transfers w2 = transfers w1.
Proof.
  intros Hdest Hremote. rewrite fetch_absent by done. rewrite Hremote.
  eexists. split; [done|]. simpl. rewrite lookup_insert_eq. split; [done|].
  rewrite fetch_existing by (simpl; by rewrite lookup_insert_eq).
  by eexists.
Qed.

(** ** From the Fetcher to the Transformer *)

Lemma fetch_all_nil (w : world) : fetch_all [] w = (Ok (), w).
Proof. done. Qed.

Lemma fetch_all_cons (tag fname url : string)
    (table : list (string * (string * string))) (w : world) :
  fetch_all ((tag, (fname, url)) :: table) w =
    match fetch tag fname url w with
    | (Ok _, w1) => fetch_all table w1
    | (Err e, w1) => (Err e, w1)
    end.
Proof. done. Qed.

Lemma fetch_all_frame (table : list (string * (string * string)))
    (path : string) (w w' : world) (r : result unit) :
  fetch_all table w = (r, w') →
  path ∉ destinations table →
  files w' !! path = files w !! path.
Proof.
  revert w. induction table as [|[tag [fname url]] table IH]; intros w Hrun Hpath.
  - rewrite fetch_all_nil in Hrun. by simplify_eq.
  - rewrite fetch_all_cons in Hrun.
    apply not_elem_of_cons in Hpath as [Hdest Hpath].
    destruct (fetch tag fname url w) as [[dest|e] w1] eqn:Hfetch.
    + rewrite (IH _ Hrun Hpath). by eapply fetch_frame.
    + simplify_eq. by eapply fetch_frame.
Qed.

Lemma fetch_all_keeps (table : list (string * (string * string)))
    (path : string) (w w' : world) (r : result unit) :
  fetch_all table w = (r, w') →
  is_Some (files w !! path) → is_Some (files w' !! path).
Proof.
  revert w. induction table as [|[tag [fname url]] table IH]; intros w Hrun Hpath.
  - rewrite fetch_all_nil in Hrun. by simplify_eq.
  - rewrite fetch_all_cons in Hrun.
    destruct (fetch tag fname url w) as [[dest|e] w1] eqn:Hfetch.
    + eapply IH; [done|]. by eapply fetch_keeps.
    + simplify_eq. by eapply fetch_keeps.
Qed.

(** A completed Fetcher leaves every file of its table on local storage. *)
Lemma fetch_all_completed (table : list (string * (string * string)))
    (w w' : world) :
  fetch_all table w = (Ok (), w') →
  ∀ dest, dest ∈ destinations table → is_Some (files w' !! dest).
Proof.
  revert w. induction table as [|[tag [fname url]] table IH];
    intros w Hrun dest Hdest.
  - by apply not_elem_of_nil in Hdest.
  - rewrite fetch_all_cons in Hrun.
    destruct (fetch tag fname url w) as [[d|e] w1] eqn:Hfetch; [|done].
    apply elem_of_cons in Hdest as [->|Hdest]; [|by eapply IH].
    apply fetch_returns in Hfetch as [-> Hsaved].
    by eapply fetch_all_keeps.
Qed.

Lemma inputs_not_fetched :
  (meta_path ∉ destinations FILES) ∧ (gct_path ∉ destinations FILES).
Proof.
  split; apply (bool_decide_unpack _); vm_compute; exact I.
Qed.

Section Linkage.

Context `{!Libraries}.
Variable gzip_decompress : string → option string.

(** C1, as the code has it.  The Fetcher saves its two files under names
    that are not the names the Transformer opens: after a Fetcher run that
    completed, its own destinations exist, the Transformer's two inputs are
    as present or absent as before, and from a [data_raw] that did not
    already hold the metadata file the Transformer stops at its first
    read. *)
Theorem fetcher_misses_transformer_inputs (w w' : world) :
  files w !! meta_path = None →
  main w = (Ok (), w') →
  (∀ dest, dest ∈ destinations FILES → is_Some (files w' !! dest)) ∧
  files w' !! gct_path = files w !! gct_path ∧
  files w' !! meta_path = None ∧
  transformer gzip_decompress (files w') = Err (FileNotFoundError meta_path).
Proof.
  intros Habsent Hmain. destruct inputs_not_fetched as [Hmeta Hgct].
  assert (files w' !! meta_path = None) as Hstill
    by by rewrite (fetch_all_frame _ _ _ _ _ Hmain Hmeta).
  split_and!.
  - by eapply fetch_all_completed.
  - by eapply fetch_all_frame.
  - done.
  - unfold transformer, pipeline, open_plain. by rewrite Hstill.
Qed.

End Linkage.

(** * The properties on the example inputs *)

(** The scenario of the specification: liver samples A, B, C and a matrix
    over B, C, D. With the header listing B before C the columns come out as
    gene_id, gene_symbol, B, C. *)
Lemma output_columns_in_header_order_witness :
  plain_text meta_ABC ∧
  sample_candidates meta_ABC = Ok [Str "A"; Str "B"; Str "C"] ∧
  gct_table gct_BCD ["B"; "C"; "D"] ∧
  output_columns (sample_etl meta_ABC gct_BCD)
    = Ok ["gene_id"; "gene_symbol"; "B"; "C"] ∧
  ∀ out, sample_etl meta_ABC gct_BCD = Ok out →
         columns (df out) = ["gene_id"; "gene_symbol"; "B"; "C"].
Proof.
  assert (plain_text meta_ABC) as Hplain by by_evaluation.
  assert (sample_candidates meta_ABC = Ok [Str "A"; Str "B"; Str "C"]) as Hmeta
    by (vm_compute; reflexivity).
  assert (gct_table gct_BCD ["B"; "C"; "D"]) as Htable by by_evaluation.
  split_and!; [done..|vm_compute; reflexivity|].
  destruct (@output_columns_in_header_order sample_libraries
              _ _ _ _ Hplain Hmeta Htable)
    as (_ & _ & loaded & _ & _ & _ & Hcols).
  intros out Hout. rewrite (Hcols out Hout). vm_compute. reflexivity.
Defined.

(** With the header listing C before B, the same candidates give the
    columns C, B: the order of the header, not that of the candidates. *)
Lemma columns_follow_header_not_candidates :
  plain_text meta_ABC ∧
  gct_table gct_CBD ["C"; "B"; "D"] ∧
  sample_candidates meta_ABC = Ok [Str "A"; Str "B"; Str "C"] ∧
  col_names gct_CBD = Ok ["Name"; "Description"; "C"; "B"; "D"] ∧
  keep_ids ["A"; "B"; "C"] (gct_samples ["Name"; "Description"; "C"; "B"; "D"])
    = ["B"; "C"] ∧
  output_columns (sample_etl meta_ABC gct_CBD)
    = Ok ["gene_id"; "gene_symbol"; "C"; "B"] ∧
  output_columns (sample_etl meta_ABC gct_CBD)
    ≠ Ok ("gene_id" :: "gene_symbol" ::
          keep_ids ["A"; "B"; "C"]
            (gct_samples ["Name"; "Description"; "C"; "B"; "D"])).
Proof.
  split_and!; try by_evaluation; try (vm_compute; reflexivity).
  intros Heq. vm_compute in Heq. discriminate Heq.
Qed.




(** A header that labels the descriptive columns gene and symbol: the load
    pass refuses it, nothing is written. *)
Lemma other_labels_refused :
  plain_text meta_ABC ∧
  plain_text gct_other_labels ∧
  matrix_header gct_other_labels = Some ["gene"; "symbol"; "B"; "C"; "D"] ∧
  sample_candidates meta_ABC = Ok [Str "A"; Str "B"; Str "C"] ∧
  sample_etl meta_ABC gct_other_labels
    = Err (UsecolsError ["Name"; "Description"]) ∧
  succeeded (sample_etl meta_ABC gct_other_labels) = false.
Proof. split_and!; try by_evaluation; vm_compute; reflexivity. Qed.

Lemma descriptive_columns_renamed_witness :
  plain_text meta_ABC ∧
  sample_candidates meta_ABC = Ok [Str "A"; Str "B"; Str "C"] ∧
  gct_table gct_BCD ["B"; "C"; "D"] ∧
  ∃ out, sample_etl meta_ABC gct_BCD = Ok out ∧
    take 2 (columns (df out)) = ["gene_id"; "gene_symbol"].
Proof.
  assert (plain_text meta_ABC) as Hplain by by_evaluation.
  assert (sample_candidates meta_ABC = Ok [Str "A"; Str "B"; Str "C"]) as Hmeta
    by (vm_compute; reflexivity).
  assert (gct_table gct_BCD ["B"; "C"; "D"]) as Htable by by_evaluation.
  split_and!; [done..|].
  destruct (@descriptive_columns_renamed sample_libraries
              _ _ _ _ Hplain Hmeta Htable)
    as (loaded & _ & _ & _ & _ & Hall).
  assert (succeeded (sample_etl meta_ABC gct_BCD) = true) as Hok
    by (vm_compute; reflexivity).
  destruct (sample_etl meta_ABC gct_BCD) as [out|e] eqn:Hout;
    [|discriminate Hok].
  exists out. split; [done|]. exact (Hall out Hout).
Defined.

(** A sample labelled gene_id: the table handed to the writer carries the
    label twice, the writer refuses it and the run fails. *)
Example duplicate_label_refused :
  gct_table gct_gene_id ["gene_id"; "C"] ∧
  sample_candidates meta_gene_id = Ok [Str "gene_id"] ∧
  sample_etl meta_gene_id gct_gene_id
    = Err (ArrowError "Duplicate column names found").
Proof. split_and!; try by_evaluation; vm_compute; reflexivity. Qed.

Lemma usecols_failure_unreachable_witness :
  plain_text gct_CBD ∧
  matrix_header gct_CBD = Some ["Name"; "Description"; "C"; "B"; "D"] ∧
  col_names gct_CBD = Ok ["Name"; "Description"; "C"; "B"; "D"] ∧
  csv_header gct_CBD 2 = Some ["Name"; "Description"; "C"; "B"; "D"] ∧
  ∀ missing,
    read_csv gct_CBD 2 (Some ["Name"; "Description"; "B"; "C"])
    ≠ Err (UsecolsError missing).
Proof.
  assert (plain_text gct_CBD) as Hplain by by_evaluation.
  assert (matrix_header gct_CBD = Some ["Name"; "Description"; "C"; "B"; "D"])
    as Hheader by (vm_compute; reflexivity).
  assert (NoDup ["Name"; "Description"; "C"; "B"; "D"]) as Hnd by by_evaluation.
  assert ("" ∉ ["C"; "B"; "D"]) as Hlabels by by_evaluation.
  destruct (usecols_failure_unreachable gct_CBD [Str "A"; Str "B"; Str "C"] _
              Hplain Hheader Hnd Hlabels)
    as (Hcols & Hcsv & _ & Hload).
  split_and!; done.
Defined.

(** The run on a compressed matrix gives what it gives on the plain one. *)
Example transformer_reads_gzip :
  sample_transformer stored_gunzip fs_gzipped
  = sample_transformer stored_gunzip fs_plain.
Proof. vm_compute. reflexivity. Qed.

(** A compressed matrix named .gct and a plain one named .gct.gz read as
    the same text. *)
Lemma smart_open_by_content_witness :
  fs_misnamed !! "data_raw/packed.gct" = Some (gzip_magic +:+ gct_BCD) ∧
  fs_misnamed !! "data_raw/plain.gct.gz" = Some gct_BCD ∧
  stored_gunzip (gzip_magic +:+ gct_BCD) = Some gct_BCD ∧
  open_text stored_gunzip fs_misnamed "data_raw/packed.gct" = Ok gct_BCD ∧
  open_text stored_gunzip fs_misnamed "data_raw/plain.gct.gz" = Ok gct_BCD.
Proof.
  assert (fs_misnamed !! "data_raw/packed.gct" = Some (gzip_magic +:+ gct_BCD))
    as Hpacked by (vm_compute; reflexivity).
  assert (fs_misnamed !! "data_raw/plain.gct.gz" = Some gct_BCD)
    as Hplain by (vm_compute; reflexivity).
  assert (has_gzip_magic (gzip_magic +:+ gct_BCD)) as Hmagic
    by (exists gct_BCD; reflexivity).
  assert (stored_gunzip (gzip_magic +:+ gct_BCD) = Some gct_BCD) as Hdecode
    by (vm_compute; reflexivity).
  assert (¬ has_gzip_magic gct_BCD) as Hnomagic
    by (intros [rest Heq]; vm_compute in Heq; discriminate Heq).
  split_and!; [done..| |].
  - exact (proj1 (proj2 (smart_open_by_content stored_gunzip _ _ _ _ _
                           Hpacked Hplain Hmagic Hdecode Hnomagic))).
  - exact (proj2 (proj2 (smart_open_by_content stored_gunzip _ _ _ _ _
                           Hpacked Hplain Hmagic Hdecode Hnomagic))).
Defined.


(** A destination holding the first three bytes of a broken download is
    skipped like any other. *)
Lemma fetch_skips_existing_witness :
  files truncated_world !! path_join RAW "GTEx_gene_reads.gct.gz" = Some "#1." ∧
  fetch "gct" "GTEx_gene_reads.gct.gz" "https://example.org/reads.gct.gz"
        truncated_world
  = (Ok "data_raw/GTEx_gene_reads.gct.gz",
     {| files := files truncated_world; remote := remote truncated_world;
        transfers := [];
        stdout := [ExistsSkip "GTEx_gene_reads.gct.gz"] |}).
Proof.
  assert (files truncated_world !! path_join RAW "GTEx_gene_reads.gct.gz"
          = Some "#1.") as Hdest by (vm_compute; reflexivity).
  split; [done|].
  exact (proj1 (fetch_skips_existing "gct" _ "https://example.org/reads.gct.gz"
                  _ _ Hdest)).
Defined.

(** From an empty [data_raw] the Fetcher downloads both files, and the
    Transformer then finds neither of its inputs. *)
Lemma fetcher_misses_transformer_inputs_witness :
  files fresh_world !! meta_path = None ∧
  main fresh_world = (Ok (), (main fresh_world).2) ∧
  dom (files (main fresh_world).2)
    = {[ "data_raw/GTEx_gene_reads.gct.gz"; "data_raw/GTEx_sample_attrs.txt" ]} ∧
  sample_transformer stored_gunzip (files (main fresh_world).2)
    = Err (FileNotFoundError meta_path).
Proof.
  assert (files fresh_world !! meta_path = None) as Habsent
    by (vm_compute; reflexivity).
  assert (main fresh_world = (Ok (), (main fresh_world).2)) as Hmain
    by (vm_compute; reflexivity).
  split_and!; [done..| |].
  - by_evaluation.
  - exact (proj2 (proj2 (proj2 (@fetcher_misses_transformer_inputs
                                  sample_libraries stored_gunzip
                                  _ _ Habsent Hmain)))).
Defined.

(** * Further properties of the Fetcher *)

(** X1. [fetch] returns normally in two ways only: the destination was
    there and nothing changed, or it was absent, the whole body was
    delivered and is now the content of the destination, with one transfer
    logged.  Either way the returned path is the destination and it
    exists. *)
Theorem fetch_ok_saved (tag fname url dest : string) (w w' : world) :
  fetch tag fname url w = (Ok dest, w') →
  dest = path_join RAW fname ∧
  is_Some (files w' !! dest) ∧
  ((is_Some (files w !! dest) ∧ files w' = files w ∧
    transfers w' = transfers w) ∨
   (files w !! dest = None ∧
    ∃ body, remote w url = Delivered body ∧
      files w' = <[dest := body]> (files w) ∧
      transfers w' = transfers w ++ [url])).
Proof.
  intros Hfetch.
  destruct (files w !! path_join RAW fname) as [content|] eqn:Hdest.
  - rewrite fetch_existing in Hfetch by by rewrite Hdest.
    simplify_eq/=. rewrite Hdest. split_and!; [done..|]. left. done.
  - rewrite fetch_absent in Hfetch by done.
    destruct (remote w url) as [body| |] eqn:Hremote; simplify_eq/=.
    rewrite lookup_insert_eq. split_and!; [done..|]. right.
    split; [done|]. by exists body.
Qed.

(** X2. Whatever its outcome, [fetch] writes at its destination only,
    removes no file, leaves the network as it is, and only appends to the
    transfer log and to the output. *)
Theorem fetch_touches_destination_only (tag fname url : string)
    (w w' : world) (r : result string) :
  fetch tag fname url w = (r, w') →
  (∀ path, path ≠ path_join RAW fname → files w' !! path = files w !! path) ∧
  (∀ path, is_Some (files w !! path) → is_Some (files w' !! path)) ∧
  remote w' = remote w ∧
  transfers w `prefix_of` transfers w' ∧
  stdout w `prefix_of` stdout w'.
Proof.
  intros Hfetch. split_and!.
  - intros path Hpath. by eapply fetch_frame.
  - intros path Hpath. by eapply fetch_keeps.
  - destruct (files w !! path_join RAW fname) as [content|] eqn:Hdest.
    + rewrite fetch_existing in Hfetch by by rewrite Hdest. by simplify_eq.
    + rewrite fetch_absent in Hfetch by done.
      by destruct (remote w url); simplify_eq/=.
  - destruct (files w !! path_join RAW fname) as [content|] eqn:Hdest.
    + rewrite fetch_existing in Hfetch by by rewrite Hdest. by simplify_eq.
    + rewrite fetch_absent in Hfetch by done.
      destruct (remote w url); simplify_eq/=; by apply prefix_app_r.
  - destruct (files w !! path_join RAW fname) as [content|] eqn:Hdest.
    + rewrite fetch_existing in Hfetch by by rewrite Hdest.
      simplify_eq/=. by apply prefix_app_r.
    + rewrite fetch_absent in Hfetch by done.
      destruct (remote w url); simplify_eq/=;
        rewrite <-?(assoc_L (++)); by apply prefix_app_r.
Qed.

(** X3. What a failed download leaves decides the retry.  A transfer
    refused before the destination is opened leaves no file, and the next
    call requests the URL again; a transfer that breaks midway leaves its
    partial file, and the next call skips it without any request. *)
Theorem retry_after_failure (tag fname url : string) (w : world) :
  files w !! path_join RAW fname = None →
  (remote w url = Refused →
   ∃ w1 r w2, fetch tag fname url w = (Err (URLError url), w1) ∧
     files w1 = files w ∧
     fetch tag fname url w1 = (r, w2) ∧
     transfers w2 = transfers w ++ [url; url]) ∧
  (∀ partial, remote w url = Truncated partial →
   ∃ w1 w2, fetch tag fname url w = (Err (URLError url), w1) ∧
     fetch tag fname url w1 = (Ok (path_join RAW fname), w2) ∧
     files w2 !! path_join RAW fname = Some partial ∧
     transfers w2 = transfers w ++ [url]).
Proof.
  intros Hdest. split.
  - intros Hremote. rewrite fetch_absent by done. rewrite Hremote.
    eexists _, _, _. split; [done|]. split; [done|].
    rewrite fetch_absent by done. simpl. rewrite Hremote.
    split; [done|]. simpl. by rewrite <-(assoc_L (++)).
  - intros partial Hremote. rewrite fetch_absent by done. rewrite Hremote.
    eexists _, _. split; [done|].
    rewrite fetch_existing by (simpl; by rewrite lookup_insert_eq).
    split; [done|]. simpl. by rewrite lookup_insert_eq.
Qed.

Lemma fetch_all_present (table : list (string * (string * string))) (w : world) :
  (∀ dest, dest ∈ destinations table → is_Some (files w !! dest)) →
  fetch_all table w =
    (Ok (), {| files := files w; remote := remote w; transfers := transfers w;
               stdout := stdout w ++ skip_lines table |}).
Proof.
  revert w. induction table as [|[tag [fname url]] table IH]; intros w Hall.
  - rewrite fetch_all_nil. unfold skip_lines. simpl. rewrite app_nil_r.
    by destruct w.
  - rewrite fetch_all_cons, fetch_existing by (apply Hall; by left).
    rewrite IH by (intros dest Hdest; simpl; apply Hall; by right).
    unfold skip_lines. simpl. by rewrite <-(assoc_L (++)).
Qed.

(** X4. Running a file table again after a run that completed downloads
    nothing: every file is skipped, no transfer is requested and no file
    changes. *)
Theorem fetch_all_again (table : list (string * (string * string)))
    (w w' : world) :
  fetch_all table w = (Ok (), w') →
  fetch_all table w' =
    (Ok (), {| files := files w'; remote := remote w';
               transfers := transfers w';
               stdout := stdout w' ++ skip_lines table |}).
Proof.
  intros Hrun. apply fetch_all_present. by eapply fetch_all_completed.
Qed.

(** X5. A failed download ends the run at once: when the first file of the
    table is absent and its transfer does not deliver, the run fails with
    that transfer's error, the URL of no later entry is requested, and no
    destination of a later entry is touched. *)
Theorem fetch_all_stops_at_failure (tag fname url : string)
    (table : list (string * (string * string))) (w : world) :
  files w !! path_join RAW fname = None →
  (∀ body, remote w url ≠ Delivered body) →
  ∃ w', fetch_all ((tag, (fname, url)) :: table) w = (Err (URLError url), w') ∧
    transfers w' = transfers w ++ [url] ∧
    ∀ path, path ≠ path_join RAW fname → files w' !! path = files w !! path.
Proof.
  intros Hdest Hremote. rewrite fetch_all_cons, fetch_absent by done.
  destruct (remote w url) as [body| |] eqn:Hr; [by destruct (Hremote body)|..];
    eexists; (split; [done|]); simpl; (split; [done|]); intros path Hpath;
    by rewrite ?lookup_insert_ne.
Qed.

Lemma fetch_transfers (tag fname url : string) (w w' : world) (r : result string) :
  fetch tag fname url w = (r, w') →
  transfers w' = transfers w ∨ transfers w' = transfers w ++ [url].
Proof.
  intros Hfetch.
  destruct (files w !! path_join RAW fname) as [content|] eqn:Hdest.
  - rewrite fetch_existing in Hfetch by by rewrite Hdest. left. by simplify_eq.
  - rewrite fetch_absent in Hfetch by done. right.
    by destruct (remote w url); simplify_eq/=.
Qed.

(** X6. A run over a file table requests only URLs of the table, in the
    order of the table, and each at most once: the requests it adds to the
    log are a subsequence of the table's URLs. *)
Theorem fetch_all_requests (table : list (string * (string * string)))
    (w w' : world) (r : result unit) :
  fetch_all table w = (r, w') →
  ∃ requested, transfers w' = transfers w ++ requested ∧
    requested `sublist_of` urls table.
Proof.
  revert w. induction table as [|[tag [fname url]] table IH]; intros w Hrun.
  - rewrite fetch_all_nil in Hrun. simplify_eq. exists []. by rewrite app_nil_r.
  - rewrite fetch_all_cons in Hrun.
    destruct (fetch tag fname url w) as [[dest|e] w1] eqn:Hfetch.
    + apply IH in Hrun as (requested & -> & Hsub).
      apply fetch_transfers in Hfetch as [->| ->].
      * exists requested. split; [done|]. by apply sublist_cons.
      * exists (url :: requested). rewrite <-(assoc_L (++)). split; [done|].
        by apply sublist_skip.
    + simplify_eq. apply fetch_transfers in Hfetch as [->| ->].
      * exists []. rewrite app_nil_r. split; [done|]. apply sublist_nil_l.
      * exists [url]. split; [done|]. apply sublist_skip, sublist_nil_l.
Qed.

(** * Further properties of the Transformer: what stops a run *)

Lemma filter_all {A} (P : A → Prop) `{!∀ x, Decision (P x)} (l : list A) :
  (∀ x, x ∈ l → P x) → filter P l = l.
Proof.
  induction l as [|x l IH]; intros Hall; [done|].
  rewrite filter_cons_True by (apply Hall; by left).
  f_equal. apply IH. intros; apply Hall; by right.
Qed.




Section Stops.

Context `{!Libraries}.



Section Opening.

Variable gzip_decompress : string → option string.

(** X9. Without the matrix file the run fails with FileNotFoundError, and
    the metadata comes first: the error names the metadata file if that is
    missing too, and it names the matrix file once the candidates are read
    from plain metadata. *)
Theorem missing_matrix_stops (fs : gmap string string) :
  fs !! gct_path = None →
  (fs !! meta_path = None →
   transformer gzip_decompress fs = Err (FileNotFoundError meta_path)) ∧
  (∀ raw liver,
     fs !! meta_path = Some raw →
     plain_text (universal_newlines raw) →
     candidate_values (universal_newlines raw) = Ok liver →
     transformer gzip_decompress fs = Err (FileNotFoundError gct_path)).
Proof.
  intros Hgct. unfold transformer, pipeline, open_plain, open_text, smart_open.
  rewrite Hgct. split.
  - by intros ->.
  - intros raw liver -> _ Hliver. by rewrite bind_Ok, Hliver.
Qed.

(** X10. A file shorter than the two magic bytes, the empty file included,
    is opened as plain text; when its bytes are ASCII it is read as it
    is. *)
Theorem smart_open_short_file (fs : gmap string string) (path raw : string) :
  fs !! path = Some raw →
  String.length raw < 2 →
  ascii_text raw →
  smart_open fs path = Ok (PlainText raw) ∧
  read_text gzip_decompress (PlainText raw) = Ok (universal_newlines raw) ∧
  open_text gzip_decompress fs path = Ok (universal_newlines raw).
Proof.
  intros Hfile Hshort _.
  assert (smart_open fs path = Ok (PlainText raw)) as Hopen.
  { apply smart_open_plain; [done|]. intros [rest ->]. simpl in Hshort. lia. }
  split_and!; [done..|]. unfold open_text. by rewrite Hopen.
Qed.


End Opening.

End Stops.

(** * Further properties of the Transformer: what a run writes *)

(** X12. Distinct candidates stay distinct, the effective filter set then
    has at most as many identifiers as the matrix has samples, and
    candidates that are all samples of the matrix are all kept. *)
Theorem keep_ids_distinct (liver : list string) (universe : gset string) :
  (NoDup liver →
   NoDup (keep_ids liver universe) ∧
   length (keep_ids liver universe) ≤ size universe) ∧
  ((∀ sid, sid ∈ liver → sid ∈ universe) → keep_ids liver universe = liver).
Proof.
  unfold keep_ids. split.
  - intros Hnd. pose proof (NoDup_filter (λ sid, sid ∈ universe) _ Hnd) as Hkeep.
    split; [done|].
    rewrite <-(size_list_to_set (C:=gset string)) by done.
    apply subseteq_size. intros sid Hsid.
    apply elem_of_list_to_set, list_elem_of_filter in Hsid. tauto.
  - apply filter_all.
Qed.

Lemma read_csv_Ok_inv (text : string) (skiprows : nat)
    (usecols : option (list string)) (frame : DataFrame) :
  read_csv text skiprows usecols = Ok frame →
  ∃ header data, csv_records text skiprows = header :: data ∧
    (∀ name, name ∈ default [] usecols → name ∈ header) ∧
    Forall (λ row, length row ≤ length header) data ∧
    columns frame = filter (λ h, use_col usecols h) header ∧
    rows frame = select_cells header (use_col usecols) <$> data.
Proof.
  unfold read_csv.
  destruct (csv_records text skiprows) as [|header data]; [done|].
  destruct (filter _ (default [] usecols)) as [|name missing] eqn:Hmissing;
    [|done].
  destruct (existsb _ data) eqn:Hwide; [done|]. intros [= <-].
  exists header, data. split_and!; [done| | |done..].
  - intros name Hname. destruct (decide (name ∈ header)) as [|Hout]; [done|].
    assert (name ∈ filter (λ name, name ∉ header) (default [] usecols)) as Hin
      by by apply list_elem_of_filter.
    rewrite Hmissing in Hin. by apply not_elem_of_nil in Hin.
  - apply Forall_forall. intros row Hrow.
    destruct (decide (length row ≤ length header)) as [|Hlong]; [done|].
    assert (existsb (λ row, Nat.ltb (length header) (length row)) data = true)
      as Htrue; [|congruence].
    apply existsb_exists. exists row. split; [by apply list_elem_of_In|].
    apply Nat.ltb_lt. lia.
Qed.

Section Written.

Context `{!Libraries}.

Lemma etl_Ok_inv (meta_text gct_text : string) (out : etl_output) :
  etl meta_text gct_text = Ok out →
  ∃ liver cols loaded,
    candidate_values meta_text = Ok liver ∧
    col_names gct_text = Ok cols ∧
    read_csv gct_text 2
      (Some ("Name" :: "Description" ::
             keep_ids (strings liver) (gct_samples cols)))
    = Ok loaded ∧
    df out = rename renamed_columns loaded ∧
    cells out = matrix_cells gct_text loaded ∧
    to_parquet (columns (df out)) (cells out) = Ok (written out) ∧
    printed out = [LiverSamples (length liver);
                   LiverFound (length liver)
                     (length (keep_ids (strings liver) (gct_samples cols)));
                   ParquetSaved parquet_out] ∧
    metrics (run out) = [("liver_samples", length liver);
                         ("genes", length (rows loaded))].
Proof.
  unfold etl, pipeline. rewrite bind_Ok.
  destruct (candidate_values meta_text) as [liver|e]; [|done].
  rewrite !bind_Ok. destruct (col_names gct_text) as [cols|e]; [|done].
  rewrite !bind_Ok.
  destruct (read_csv gct_text 2 _) as [loaded|e] eqn:Hload; [|done].
  rewrite bind_Ok. intros (Hwritten & Hdf & Hcells & Hprinted & Hmetrics)%save_and_log_Ok_inv.
  exists liver, cols, loaded. rewrite Hdf, Hcells. by split_and!.
Qed.

(** X13. What a run reports, for plain metadata and a plain matrix laid out
    as a GCT file with distinct labels: the metric liver_samples is the
    number of candidates read from the metadata, not the number found in
    the matrix; the metric genes is the number of gene rows of the matrix;
    the found count printed next to the requested count is the number of
    candidates that are strings and label a sample of the matrix, and never
    exceeds the requested count. *)
Theorem run_record_counts (meta_text gct_text : string)
    (liver : list value) (samples : list string) :
  let found := length (filter (λ sid, sid ∈ samples) (strings liver)) in
  plain_text meta_text →
  candidate_values meta_text = Ok liver →
  gct_table gct_text samples →
  found ≤ length liver ∧
  ∀ out, etl meta_text gct_text = Ok out →
    metrics (run out) = [("liver_samples", length liver);
                         ("genes", length (matrix_rows gct_text))] ∧
    printed out = [LiverSamples (length liver);
                   LiverFound (length liver) found;
                   ParquetSaved parquet_out].
Proof.
  intros found _ Hmeta (_ & Hlayout & _). split.
  - unfold found. etrans; [apply length_filter|apply length_strings].
  - intros out Hout.
    destruct (etl_gct_layout _ _ _ _ Hmeta Hlayout)
      as (loaded & _ & _ & Hrows & Hrun).
    rewrite Hrun in Hout.
    apply save_and_log_Ok_inv in Hout as (_ & _ & _ & -> & ->).
    simpl. rewrite Hrows, length_fmap. split; [done|].
    do 2 f_equal. unfold found, keep_ids. do 2 f_equal.
    apply filter_iff_in. intros sid _.
    by rewrite elem_of_gct_samples.
Qed.

(** X14. A run writes a table only from a matrix whose header, as the load
    pass sees it, carries the labels Name and Description; the table then
    has the columns gene_id and gene_symbol, and every other column of it
    is a label of that header. *)
Theorem success_needs_labels (meta_text gct_text : string) (out : etl_output) :
  etl meta_text gct_text = Ok out →
  ∃ header, csv_header gct_text 2 = Some header ∧
    "Name" ∈ header ∧ "Description" ∈ header ∧
    "gene_id" ∈ columns (df out) ∧ "gene_symbol" ∈ columns (df out) ∧
    ∀ c, c ∈ columns (df out) →
         c = "gene_id" ∨ c = "gene_symbol" ∨ c ∈ header.
Proof.
  intros (liver & cols & loaded & _ & _ & Hload & Hdf & _)%etl_Ok_inv.
  apply read_csv_Ok_inv in Hload
    as (header & data & Hrecords & Husecols & _ & Hcolumns & _).
  assert ("Name" ∈ header) as Hname by (apply Husecols; simpl; set_solver).
  assert ("Description" ∈ header) as Hdesc
    by (apply Husecols; simpl; set_solver).
  exists header. unfold csv_header. rewrite Hrecords, Hdf. simpl.
  rewrite Hcolumns. split_and!; [done..| | |].
  - apply list_elem_of_fmap. exists "Name". split; [done|].
    apply list_elem_of_filter. split; [|done].
    unfold use_col. apply bool_decide_pack. set_solver.
  - apply list_elem_of_fmap. exists "Description". split; [done|].
    apply list_elem_of_filter. split; [|done].
    unfold use_col. apply bool_decide_pack. set_solver.
  - intros c (h & -> & [_ Hh]%list_elem_of_filter)%list_elem_of_fmap.
    unfold renamed_columns.
    destruct (decide (h = "Name")) as [->|Hn]; [by left|].
    destruct (decide (h = "Description")) as [->|Hd]; [by right; left|].
    right; right. by rewrite lookup_insert_ne, lookup_singleton_ne.
Qed.



(** The kept cells of a row, each under its label, are the labelled cells
    of the row that the selection accepts. *)
Lemma select_cells_zip (header row : list string) (use : string → bool) :
  zip (filter (λ h, use h) header) (select_cells header use row)
  = filter (λ p, use p.1) (zip header (resize (length header) "" row)).
Proof.
  revert row. induction header as [|h header IH]; intros row; [done|].
  cbn [select_cells length]. rewrite (filter_cons _ h).
  assert (resize (S (length header)) "" row
          = hd "" row :: resize (length header) "" (tl row)) as ->.
  { destruct row as [|cell row]; [|done]. simpl. by rewrite resize_nil. }
  cbn [zip zip_with]. rewrite filter_cons. simpl.
  destruct (use h); simpl; by rewrite IH.
Qed.

(** X16. Selecting columns does not move a field.  For plain metadata and
    a plain matrix laid out as a GCT file with distinct labels, in a run
    that ends well each row of the table is read from its gene row: its key
    cells from the two leading fields, and its sample cells, taken with
    their column labels, from exactly the fields of the gene row under the
    labels that are candidates, in the order of the header; a field the
    gene row lacks is the empty field.  What value pandas makes of a field
    (a number, the missing value) is the library's. *)
Theorem values_preserved (meta_text gct_text : string)
    (liver : list value) (samples : list string) (out : etl_output) :
  plain_text meta_text →
  candidate_values meta_text = Ok liver →
  gct_table gct_text samples →
  etl meta_text gct_text = Ok out →
  Forall2 (λ row fields,
             row_key fields = row_key row ∧
             zip (drop 2 (columns (df out))) (drop 2 fields)
             = filter (λ p, p.1 ∈ strings liver)
                 (zip samples (resize (length samples) "" (drop 2 row))))
          (matrix_rows gct_text) (rows (df out)).
Proof.
  intros _ Hmeta (_ & Hlayout & Hnd & _) Hout.
  destruct (etl_gct_layout _ _ _ _ Hmeta Hlayout)
    as (loaded & _ & Hcols & Hrows & Hrun).
  rewrite Hrun in Hout. apply save_and_log_Ok_inv in Hout as (_ & -> & _).
  cbn [rename columns rows].
  rewrite Hcols, Hrows, written_columns by done. cbn [drop].
  apply Forall2_fmap_r, Forall_Forall2_diag, Forall_forall. intros row _.
  set (use := use_col (Some ("Name" :: "Description" ::
                keep_ids (strings liver)
                  (gct_samples ("Name" :: "Description" :: samples))))).
  assert (use "Name" ∧ use "Description") as [Hname Hdesc]
    by (split; apply bool_decide_pack; set_solver).
  unfold compose. split; [by apply row_key_select|].
  cbn [select_cells]. destruct (use "Name"), (use "Description"); try done.
  cbn [drop]. replace (tl (tl row)) with (drop 2 row)
    by by destruct row as [|? [|? ?]].
  apply distinct_labels in Hnd as (_ & Hn & Hd).
  assert (∀ s, s ∈ samples → use s ↔ s ∈ strings liver) as Huse.
  { intros s Hs. unfold use, use_col. rewrite bool_decide_spec, !elem_of_cons.
    rewrite keep_ids_in_samples. split; [|tauto].
    intros [->|[->|?]]; [done..|tauto]. }
  transitivity (zip (filter (λ h, use h) samples)
                    (select_cells samples use (drop 2 row))).
  - f_equal. apply filter_iff_in. intros s Hs.
    rewrite keep_ids_in_samples, Huse by done. tauto.
  - rewrite select_cells_zip. apply filter_iff_in.
    intros [s cell] Hin%elem_of_zip_l. by apply Huse.
Qed.

Section Compression.

Variable gzip_decompress : string → option string.

(** X17. Compressing or decompressing the matrix file does not change the
    outcome of a run: with the same metadata file, a matrix stored
    compressed and its decompressed plain-text counterpart give the same
    table, or the same failure. *)
Theorem compression_transparent (fs fs' : gmap string string)
    (packed plain : string) :
  fs !! meta_path = fs' !! meta_path →
  fs !! gct_path = Some packed →
  fs' !! gct_path = Some plain →
  has_gzip_magic packed →
  gzip_decompress packed = Some plain →
  ¬ has_gzip_magic plain →
  transformer gzip_decompress fs = transformer gzip_decompress fs'.
Proof.
  intros Hmeta Hpacked Hplain Hmagic Hdecode Hnomagic.
  unfold transformer, open_plain, open_text. rewrite Hmeta.
  rewrite (smart_open_gzip _ _ _ Hpacked Hmagic).
  rewrite (smart_open_plain _ _ _ Hplain Hnomagic), !bind_Ok.
  simpl. by rewrite Hdecode.
Qed.

End Compression.

End Written.

(** * Further properties of the text helpers *)




Lemma concat_cons (sep piece : string) (pieces : list string) :
  pieces ≠ [] →
  String.concat sep (piece :: pieces)
  = piece +:+ sep +:+ String.concat sep pieces.
Proof. by destruct pieces. Qed.

Lemma concat_split_on (sep : ascii) (s : string) :
  String.concat (String sep "") (split_on sep s) = s.
Proof.
  induction s as [|c s IH]; [done|]. cbn [split_on].
  pose proof (split_on_not_nil sep s) as Hne.
  destruct (Ascii.eqb_spec c sep) as [->|_].
  - rewrite concat_cons, IH by done. done.
  - destruct (split_on sep s) as [|p ps]; [done|].
    destruct ps as [|q ps]; [simpl in *; by rewrite IH|].
    rewrite concat_cons by done. rewrite concat_cons in IH by done.
    rewrite <-IH. reflexivity.
Qed.

Lemma split_on_chars (sep : ascii) (s piece : string) (c : ascii) :
  piece ∈ split_on sep s →
  c ∈ String.list_ascii_of_string piece →
  c ≠ sep ∧ c ∈ String.list_ascii_of_string s.
Proof.
  revert piece. induction s as [|b s IH]; intros piece Hpiece Hc.
  - apply list_elem_of_singleton in Hpiece as ->. by apply not_elem_of_nil in Hc.
  - simpl in Hpiece. destruct (Ascii.eqb_spec b sep) as [->|Hb].
    + apply elem_of_cons in Hpiece as [->|Hpiece];
        [by apply not_elem_of_nil in Hc|].
      destruct (IH _ Hpiece Hc). split; [done|]. by right.
    + pose proof (split_on_not_nil sep s) as Hne.
      destruct (split_on sep s) as [|p ps]; [done|].
      apply elem_of_cons in Hpiece as [->|Hpiece].
      * simpl in Hc. apply elem_of_cons in Hc as [->|Hc]; [split; [done|by left]|].
        destruct (IH p) as [? ?]; [by left|done|]. split; [done|]. by right.
      * destruct (IH piece) as [? ?]; [by right|done|]. split; [done|]. by right.
Qed.

Lemma drop_final_empty_subseteq (pieces : list string) :
  drop_final_empty pieces ⊆ pieces.
Proof.
  induction pieces as [|p [|q ps] IH]; [done| |].
  - simpl. destruct (String.eqb p ""); [apply list_subseteq_nil|done].
  - rewrite drop_final_empty_cons. intros piece [->|Hin]%elem_of_cons.
    + by left.
    + right. by apply IH.
Qed.

Lemma CR_not_LF : CR ≠ LF.
Proof. intros Heq. vm_compute in Heq. discriminate Heq. Qed.

Lemma universal_newlines_no_CR (s : string) :
  CR ∉ String.list_ascii_of_string (universal_newlines s).
Proof.
  assert (∀ n s, String.length s ≤ n →
            CR ∉ String.list_ascii_of_string (universal_newlines s)) as Hall.
  { clear s. induction n as [|n IH]; intros s Hlen.
    - destruct s; [apply not_elem_of_nil|simpl in Hlen; lia].
    - destruct s as [|c s]; [apply not_elem_of_nil|]. simpl in Hlen.
      cbn [universal_newlines].
      destruct (Ascii.eqb_spec c CR) as [->|Hc].
      + destruct s as [|c' s].
        * apply not_elem_of_cons. split; [apply CR_not_LF|apply not_elem_of_nil].
        * simpl in Hlen. destruct (Ascii.eqb c' LF);
            apply not_elem_of_cons; (split; [apply CR_not_LF|]);
            apply IH; simpl; lia.
      + apply not_elem_of_cons. split; [done|]. apply IH. lia. }
  by apply (Hall (String.length s)).
Qed.

Lemma rstrip_line_chars (text line : string) (c : ascii) :
  line ∈ iter_lines text →
  c ∈ String.list_ascii_of_string (rstrip_nl line) →
  c ≠ LF ∧ c ∈ String.list_ascii_of_string text.
Proof.
  intros Hline Hc. apply (split_on_chars LF text (rstrip_nl line)); [|done].
  apply drop_final_empty_subseteq. fold (physical_lines text).
  rewrite physical_lines_iter. apply list_elem_of_fmap. by exists line.
Qed.

Section Labels.

Variable gzip_decompress : string → option string.

Lemma open_text_no_CR (fs : gmap string string) (path text : string) :
  open_text gzip_decompress fs path = Ok text →
  CR ∉ String.list_ascii_of_string text.
Proof.
  unfold open_text, smart_open. destruct (fs !! path) as [raw|]; [|done].
  destruct (String.eqb _ gzip_magic); rewrite bind_Ok; simpl.
  - destruct (gzip_decompress raw); [|done].
    intros [= <-]. apply universal_newlines_no_CR.
  - intros [= <-]. apply universal_newlines_no_CR.
Qed.

(** X19. What the discovery pass returns for a file opened by
    [smart_open]: at least one label; joined with tabs the labels give back
    the third line without its line end (the empty text when the file has
    two lines only); and no label holds a tab, a newline or a carriage
    return. *)
Theorem discovered_labels (fs : gmap string string) (path text : string)
    (cols : list string) :
  open_text gzip_decompress fs path = Ok text →
  col_names text = Ok cols →
  cols ≠ [] ∧
  String.concat (String TAB "") cols
    = rstrip_nl (readline (drop 2 (iter_lines text))).1 ∧
  ∀ label c, label ∈ cols → c ∈ String.list_ascii_of_string label →
             c ≠ TAB ∧ c ≠ LF ∧ c ≠ CR.
Proof.
  intros Hopen Hcols. apply open_text_no_CR in Hopen.
  destruct (iter_lines text) as [|l1 [|l2 ls]] eqn:Hlines.
  - by rewrite col_names_short in Hcols by (rewrite Hlines; simpl; lia).
  - by rewrite col_names_short in Hcols by (rewrite Hlines; simpl; lia).
  - assert (cols = split_on TAB (rstrip_nl (readline ls).1)) as ->.
    { unfold col_names in Hcols. rewrite Hlines in Hcols. simpl in Hcols.
      destruct ls; by simplify_eq/=. }
    cbn [drop]. split_and!.
    + apply split_on_not_nil.
    + apply concat_split_on.
    + intros label c Hlabel Hc.
      destruct (split_on_chars _ _ _ _ Hlabel Hc) as [Htab Hline].
      split; [done|]. destruct ls as [|l3 ls]; [by apply not_elem_of_nil in Hline|].
      destruct (rstrip_line_chars text l3 c) as [Hlf Htext];
        [rewrite Hlines; set_solver|done|].
      split; [done|]. by intros ->.
Qed.

End Labels.

(** X20. The candidates are read off the metadata table row by row: they
    are the SAMPID cells of the rows whose SMTSD cell is exactly "Liver",
    in the order of the rows, a repeated identifier as often as it occurs;
    there are no more candidates than rows. *)
Theorem candidates_in_row_order (meta : DataFrame) (i j : nat) :
  list_find (λ c, c = "SMTSD") (columns meta) = Some (i, "SMTSD") →
  list_find (λ c, c = "SAMPID") (columns meta) = Some (j, "SAMPID") →
  ∃ liver, liver_ids meta = Ok liver ∧
    liver = (λ row, default "" (row !! j)) <$>
              filter (λ row, default "" (row !! i) = "Liver") (rows meta) ∧
    length liver ≤ length (rows meta).
Proof.
  intros Hi Hj. eexists. split; [by apply liver_ids_rows|].
  split; [done|]. rewrite length_fmap. apply length_filter.
Qed.

Lemma select_cells_ext (header row : list string) (use use' : string → bool) :
  (∀ h, h ∈ header → use h = use' h) →
  select_cells header use row = select_cells header use' row.
Proof.
  revert row. induction header as [|h header IH]; intros row Hext; [done|].
  cbn [select_cells]. rewrite (Hext h) by by left.
  by rewrite (IH (tl row)) by (intros; apply Hext; by right).
Qed.

Section Candidates.

Context `{!Libraries}.

(** X21. The outcome of a run depends on the candidates only through the
    set of strings among them.  For a plain matrix laid out as a GCT file
    with distinct labels, two plain metadata files whose candidates hold
    the same strings, in whatever order and however often repeated, hand
    the same table to the writer: both runs fail with the same error, or
    both write the same table and the same bytes. *)
Theorem table_ignores_candidate_order (meta_text meta_text' gct_text : string)
    (liver liver' : list value) (samples : list string) :
  plain_text meta_text →
  plain_text meta_text' →
  candidate_values meta_text = Ok liver →
  candidate_values meta_text' = Ok liver' →
  (∀ sid, sid ∈ strings liver ↔ sid ∈ strings liver') →
  gct_table gct_text samples →
  (∀ e, etl meta_text gct_text = Err e → etl meta_text' gct_text = Err e) ∧
  (∀ out, etl meta_text gct_text = Ok out →
     ∃ out', etl meta_text' gct_text = Ok out' ∧
       df out = df out' ∧ cells out = cells out' ∧ written out = written out').
Proof.
  intros _ _ Hmeta Hmeta' Hsame (_ & Hlayout & _).
  destruct (etl_gct_layout _ _ _ _ Hmeta Hlayout)
    as (loaded & _ & Hcols & Hrows & Hrun).
  destruct (etl_gct_layout _ _ _ _ Hmeta' Hlayout)
    as (loaded' & _ & Hcols' & Hrows' & Hrun').
  assert (∀ h, use_col (Some ("Name" :: "Description" ::
                 keep_ids (strings liver)
                   (gct_samples ("Name" :: "Description" :: samples)))) h
               = use_col (Some ("Name" :: "Description" ::
                 keep_ids (strings liver')
                   (gct_samples ("Name" :: "Description" :: samples)))) h)
    as Huse.
  { intros h. unfold use_col. apply bool_decide_ext.
    rewrite !elem_of_cons, !keep_ids_in_samples, Hsame. done. }
  assert (loaded = loaded') as <-.
  { destruct loaded as [cols rws], loaded' as [cols' rws'].
    cbn [columns rows] in *. subst. f_equal.
    - apply list_filter_iff. intros h. by rewrite Huse.
    - apply Forall_fmap_ext_1, Forall_forall. intros row _.
      apply select_cells_ext. intros h _. apply Huse. }
  rewrite Hrun, Hrun'. unfold save_and_log.
  destruct (to_parquet _ _) as [encoded|e']; [|by rewrite !bind_Err].
  rewrite !bind_Ok. split; [done|].
  intros out [= <-]. by eexists.
Qed.

End Candidates.

(** * The further properties on the example inputs *)

Lemma fetch_ok_saved_witness :
  fetch "gct" "reads.gct.gz" "https://example.org/reads" fresh_world
  = (Ok "data_raw/reads.gct.gz",
     (fetch "gct" "reads.gct.gz" "https://example.org/reads" fresh_world).2) ∧
  is_Some (files (fetch "gct" "reads.gct.gz" "https://example.org/reads"
                    fresh_world).2 !! "data_raw/reads.gct.gz").
Proof.
  assert (fetch "gct" "reads.gct.gz" "https://example.org/reads" fresh_world
          = (Ok "data_raw/reads.gct.gz",
             (fetch "gct" "reads.gct.gz" "https://example.org/reads"
                fresh_world).2)) as Hfetch by (vm_compute; reflexivity).
  split; [exact Hfetch|].
  exact (proj1 (proj2 (fetch_ok_saved _ _ _ _ _ _ Hfetch))).
Defined.

Lemma fetch_touches_destination_only_witness :
  fetch "gct" "reads.gct.gz" "https://example.org/reads" truncated_world
  = (Ok "data_raw/reads.gct.gz",
     (fetch "gct" "reads.gct.gz" "https://example.org/reads" truncated_world).2) ∧
  ∀ path, is_Some (files truncated_world !! path) →
    is_Some (files (fetch "gct" "reads.gct.gz" "https://example.org/reads"
                      truncated_world).2 !! path).
Proof.
  assert (fetch "gct" "reads.gct.gz" "https://example.org/reads" truncated_world
          = (Ok "data_raw/reads.gct.gz",
             (fetch "gct" "reads.gct.gz" "https://example.org/reads"
                truncated_world).2)) as Hfetch by (vm_compute; reflexivity).
  split; [exact Hfetch|].
  exact (proj1 (proj2 (fetch_touches_destination_only _ _ _ _ _ _ Hfetch))).
Defined.

Lemma retry_after_failure_witness :
  files truncating_world !! path_join RAW "reads.gct.gz" = None ∧
  ∃ w1 w2,
    fetch "gct" "reads.gct.gz" "https://example.org/reads" truncating_world
    = (Err (URLError "https://example.org/reads"), w1) ∧
    fetch "gct" "reads.gct.gz" "https://example.org/reads" w1
    = (Ok (path_join RAW "reads.gct.gz"), w2) ∧
    files w2 !! path_join RAW "reads.gct.gz" = Some "#1." ∧
    transfers w2 = transfers truncating_world ++ ["https://example.org/reads"].
Proof.
  assert (files truncating_world !! path_join RAW "reads.gct.gz" = None)
    as Hdest by (vm_compute; reflexivity).
  split; [exact Hdest|].
  exact (proj2 (retry_after_failure "gct" _ "https://example.org/reads" _ Hdest)
           "#1." eq_refl).
Defined.

Lemma fetch_all_again_witness :
  fetch_all FILES fresh_world = (Ok (), (fetch_all FILES fresh_world).2) ∧
  transfers (fetch_all FILES (fetch_all FILES fresh_world).2).2
  = transfers (fetch_all FILES fresh_world).2.
Proof.
  assert (fetch_all FILES fresh_world = (Ok (), (fetch_all FILES fresh_world).2))
    as Hrun by (vm_compute; reflexivity).
  split; [exact Hrun|]. by rewrite (fetch_all_again _ _ _ Hrun).
Defined.

Lemma fetch_all_stops_at_failure_witness :
  files refusing_world !! path_join RAW "reads.gct.gz" = None ∧
  (∀ body, remote refusing_world "https://example.org/reads" ≠ Delivered body) ∧
  ∃ w', fetch_all [("gct", ("reads.gct.gz", "https://example.org/reads"));
                   ("samp", ("attrs.txt", "https://example.org/attrs"))]
          refusing_world
        = (Err (URLError "https://example.org/reads"), w') ∧
    transfers w' = ["https://example.org/reads"].
Proof.
  assert (files refusing_world !! path_join RAW "reads.gct.gz" = None)
    as Hdest by (vm_compute; reflexivity).
  assert (∀ body, remote refusing_world "https://example.org/reads"
                  ≠ Delivered body) as Hremote by (intros body; discriminate).
  split_and!; [exact Hdest|exact Hremote|].
  destruct (fetch_all_stops_at_failure "gct" _ _
              [("samp", ("attrs.txt", "https://example.org/attrs"))]
              _ Hdest Hremote) as (w' & Hrun & Hlog & _).
  exists w'. split; [exact Hrun|exact Hlog].
Defined.

Lemma fetch_all_requests_witness :
  fetch_all FILES fresh_world = (Ok (), (fetch_all FILES fresh_world).2) ∧
  ∃ requested,
    transfers (fetch_all FILES fresh_world).2
    = transfers fresh_world ++ requested ∧
    requested `sublist_of` urls FILES.
Proof.
  assert (fetch_all FILES fresh_world = (Ok (), (fetch_all FILES fresh_world).2))
    as Hrun by (vm_compute; reflexivity).
  split; [exact Hrun|]. exact (fetch_all_requests _ _ _ _ Hrun).
Defined.



Lemma missing_matrix_stops_witness :
  fs_no_matrix !! gct_path = None ∧
  fs_no_matrix !! meta_path = Some meta_ABC ∧
  plain_text (universal_newlines meta_ABC) ∧
  sample_candidates (universal_newlines meta_ABC)
    = Ok [Str "A"; Str "B"; Str "C"] ∧
  sample_transformer stored_gunzip fs_no_matrix
    = Err (FileNotFoundError gct_path).
Proof.
  assert (fs_no_matrix !! gct_path = None) as Hgct by (vm_compute; reflexivity).
  assert (fs_no_matrix !! meta_path = Some meta_ABC) as Hmeta
    by (vm_compute; reflexivity).
  assert (plain_text (universal_newlines meta_ABC)) as Hplain by by_evaluation.
  assert (sample_candidates (universal_newlines meta_ABC)
          = Ok [Str "A"; Str "B"; Str "C"]) as Hliver
    by (vm_compute; reflexivity).
  split_and!; [done..|].
  exact (proj2 (@missing_matrix_stops sample_libraries stored_gunzip _ Hgct)
           _ _ Hmeta Hplain Hliver).
Defined.

Lemma smart_open_short_file_witness :
  fs_empty_file !! "data_raw/empty.gct" = Some "" ∧
  String.length "" < 2 ∧
  ascii_text "" ∧
  open_text stored_gunzip fs_empty_file "data_raw/empty.gct" = Ok "".
Proof.
  assert (fs_empty_file !! "data_raw/empty.gct" = Some "") as Hfile
    by (vm_compute; reflexivity).
  assert (String.length "" < 2) as Hshort by (simpl; lia).
  assert (ascii_text "") as Hascii by by_evaluation.
  split_and!; [exact Hfile|exact Hshort|exact Hascii|].
  exact (proj2 (proj2 (smart_open_short_file stored_gunzip _ _ _
                         Hfile Hshort Hascii))).
Defined.


(** Three candidates, two of them in the matrix, two gene rows. *)
Lemma run_record_counts_witness :
  plain_text meta_ABC ∧
  sample_candidates meta_ABC = Ok [Str "A"; Str "B"; Str "C"] ∧
  gct_table gct_CBD ["C"; "B"; "D"] ∧
  ∃ out, sample_etl meta_ABC gct_CBD = Ok out ∧
    metrics (run out) = [("liver_samples", 3); ("genes", 2)] ∧
    printed out = [LiverSamples 3; LiverFound 3 2; ParquetSaved parquet_out].
Proof.
  assert (plain_text meta_ABC) as Hplain by by_evaluation.
  assert (sample_candidates meta_ABC = Ok [Str "A"; Str "B"; Str "C"]) as Hmeta
    by (vm_compute; reflexivity).
  assert (gct_table gct_CBD ["C"; "B"; "D"]) as Htable by by_evaluation.
  split_and!; [done..|].
  destruct (@run_record_counts sample_libraries _ _ _ _ Hplain Hmeta Htable)
    as [_ Hall].
  assert (succeeded (sample_etl meta_ABC gct_CBD) = true) as Hok
    by (vm_compute; reflexivity).
  destruct (sample_etl meta_ABC gct_CBD) as [out|e] eqn:Hout;
    [|discriminate Hok].
  exists out. destruct (Hall out Hout) as [-> ->].
  split_and!; [done|vm_compute; reflexivity..].
Defined.

(** Candidates named by numbers.  Alone in their column they are read as
    numbers, and none of them is a label of the matrix; next to a sample X
    they stay strings, and both are found. *)
Example numbers_read_by_column :
  sample_candidates meta_numbers = Ok [Num "1"; Num "2"] ∧
  output_columns (sample_etl meta_numbers gct_numbers)
    = Ok ["gene_id"; "gene_symbol"] ∧
  sample_candidates meta_numbers_X = Ok [Str "1"; Str "2"] ∧
  output_columns (sample_etl meta_numbers_X gct_numbers)
    = Ok ["gene_id"; "gene_symbol"; "1"; "2"].
Proof. split_and!; vm_compute; reflexivity. Qed.

Lemma success_needs_labels_witness :
  ∃ out, sample_etl meta_ABC gct_BCD = Ok out ∧
    csv_header gct_BCD 2 = Some ["Name"; "Description"; "B"; "C"; "D"] ∧
    "gene_id" ∈ columns (df out).
Proof.
  assert (∃ out, sample_etl meta_ABC gct_BCD = Ok out) as [out Hout]
    by (eexists; vm_compute; reflexivity).
  destruct (@success_needs_labels sample_libraries _ _ _ Hout)
    as (header & _ & _ & _ & Hid & _).
  exists out. split_and!; [exact Hout|vm_compute; reflexivity|exact Hid].
Defined.


Lemma values_preserved_witness :
  plain_text meta_ABC ∧
  sample_candidates meta_ABC = Ok [Str "A"; Str "B"; Str "C"] ∧
  gct_table gct_CBD ["C"; "B"; "D"] ∧
  ∃ out, sample_etl meta_ABC gct_CBD = Ok out ∧
    Forall2 (λ row fields,
               row_key fields = row_key row ∧
               zip (drop 2 (columns (df out))) (drop 2 fields)
               = filter (λ p, p.1 ∈ ["A"; "B"; "C"])
                   (zip ["C"; "B"; "D"] (resize 3 "" (drop 2 row))))
            (matrix_rows gct_CBD) (rows (df out)).
Proof.
  assert (plain_text meta_ABC) as Hplain by by_evaluation.
  assert (sample_candidates meta_ABC = Ok [Str "A"; Str "B"; Str "C"]) as Hmeta
    by (vm_compute; reflexivity).
  assert (gct_table gct_CBD ["C"; "B"; "D"]) as Htable by by_evaluation.
  split_and!; [done..|].
  assert (∃ out, sample_etl meta_ABC gct_CBD = Ok out) as [out Hout]
    by (eexists; vm_compute; reflexivity).
  exists out. split; [exact Hout|].
  exact (@values_preserved sample_libraries _ _ _ _ _
           Hplain Hmeta Htable Hout).
Defined.

Lemma compression_transparent_witness :
  fs_gzipped !! meta_path = fs_plain !! meta_path ∧
  fs_gzipped !! gct_path = Some (gzip_magic +:+ gct_BCD) ∧
  fs_plain !! gct_path = Some gct_BCD ∧
  stored_gunzip (gzip_magic +:+ gct_BCD) = Some gct_BCD ∧
  sample_transformer stored_gunzip fs_gzipped
  = sample_transformer stored_gunzip fs_plain.
Proof.
  assert (fs_gzipped !! meta_path = fs_plain !! meta_path) as Hmeta
    by (vm_compute; reflexivity).
  assert (fs_gzipped !! gct_path = Some (gzip_magic +:+ gct_BCD)) as Hpacked
    by (vm_compute; reflexivity).
  assert (fs_plain !! gct_path = Some gct_BCD) as Hplain
    by (vm_compute; reflexivity).
  assert (has_gzip_magic (gzip_magic +:+ gct_BCD)) as Hmagic
    by (exists gct_BCD; reflexivity).
  assert (stored_gunzip (gzip_magic +:+ gct_BCD) = Some gct_BCD) as Hdecode
    by (vm_compute; reflexivity).
  assert (¬ has_gzip_magic gct_BCD) as Hnomagic
    by (intros [rest Heq]; vm_compute in Heq; discriminate Heq).
  split_and!; [exact Hmeta|exact Hpacked|exact Hplain|exact Hdecode|].
  exact (@compression_transparent sample_libraries stored_gunzip _ _ _ _
           Hmeta Hpacked Hplain Hmagic Hdecode Hnomagic).
Defined.


Lemma discovered_labels_witness :
  open_text stored_gunzip fs_plain gct_path = Ok gct_BCD ∧
  col_names gct_BCD = Ok ["Name"; "Description"; "B"; "C"; "D"] ∧
  String.concat (String TAB "") ["Name"; "Description"; "B"; "C"; "D"]
  = rstrip_nl (readline (drop 2 (iter_lines gct_BCD))).1.
Proof.
  assert (open_text stored_gunzip fs_plain gct_path = Ok gct_BCD) as Hopen
    by (vm_compute; reflexivity).
  assert (col_names gct_BCD = Ok ["Name"; "Description"; "B"; "C"; "D"])
    as Hcols by (vm_compute; reflexivity).
  split_and!; [exact Hopen|exact Hcols|].
  exact (proj1 (proj2 (discovered_labels stored_gunzip _ _ _ _ Hopen Hcols))).
Defined.

Lemma candidates_in_row_order_witness :
  list_find (λ c, c = "SMTSD") (columns table_ABC) = Some (2, "SMTSD") ∧
  list_find (λ c, c = "SAMPID") (columns table_ABC) = Some (0, "SAMPID") ∧
  read_csv meta_ABC 0 None = Ok table_ABC ∧
  liver_ids table_ABC = Ok ["A"; "B"; "C"].
Proof.
  assert (list_find (λ c, c = "SMTSD") (columns table_ABC) = Some (2, "SMTSD"))
    as Hi by (vm_compute; reflexivity).
  assert (list_find (λ c, c = "SAMPID") (columns table_ABC) = Some (0, "SAMPID"))
    as Hj by (vm_compute; reflexivity).
  split_and!; [exact Hi|exact Hj|vm_compute; reflexivity|].
  destruct (candidates_in_row_order _ _ _ Hi Hj) as (liver & -> & -> & _).
  vm_compute. reflexivity.
Defined.

(** The liver samples of [meta_ABC] in another order, C twice. *)
Lemma table_ignores_candidate_order_witness :
  plain_text meta_ABC ∧
  plain_text meta_CBAC ∧
  sample_candidates meta_ABC = Ok [Str "A"; Str "B"; Str "C"] ∧
  sample_candidates meta_CBAC = Ok [Str "C"; Str "B"; Str "A"; Str "C"] ∧
  gct_table gct_BCD ["B"; "C"; "D"] ∧
  ∃ out out', sample_etl meta_ABC gct_BCD = Ok out ∧
    sample_etl meta_CBAC gct_BCD = Ok out' ∧
    columns (df out) = ["gene_id"; "gene_symbol"; "B"; "C"] ∧
    df out = df out' ∧ cells out = cells out' ∧ written out = written out'.
Proof.
  assert (plain_text meta_ABC) as Hplain by by_evaluation.
  assert (plain_text meta_CBAC) as Hplain' by by_evaluation.
  assert (sample_candidates meta_ABC = Ok [Str "A"; Str "B"; Str "C"]) as Hmeta
    by (vm_compute; reflexivity).
  assert (sample_candidates meta_CBAC = Ok [Str "C"; Str "B"; Str "A"; Str "C"])
    as Hmeta' by (vm_compute; reflexivity).
  assert (∀ sid : string,
            sid ∈ strings [Str "A"; Str "B"; Str "C"] ↔
            sid ∈ strings [Str "C"; Str "B"; Str "A"; Str "C"])
    as Hsame by (intros sid; cbn; rewrite !elem_of_cons; tauto).
  assert (gct_table gct_BCD ["B"; "C"; "D"]) as Htable by by_evaluation.
  split_and!; [done..|].
  assert (∃ out, sample_etl meta_ABC gct_BCD = Ok out ∧
            columns (df out) = ["gene_id"; "gene_symbol"; "B"; "C"])
    as (out & Hout & Hcols) by (eexists; vm_compute; split; reflexivity).
  destruct (proj2 (@table_ignores_candidate_order sample_libraries
                     _ _ _ _ _ _ Hplain Hplain' Hmeta Hmeta' Hsame Htable)
              out Hout) as (out' & Hout' & Hdf & Hcells & Hwritten).
  exists out, out'. by split_and!.
Defined.
